(** * Product catalogue and payment controllers

    A shallow embedding of the request handlers of
    [controller/createProduct.js] (the second document of
    [src/routes/ProductRoute.js]) together with the properties that the
    specification states about them.

    Handlers are written in a small state-and-exception monad over a
    [World] (the MongoDB collections, the file system the upload lands in,
    the log of collection operations and of gateway calls) and a response
    slot: [res.status(n).send(b)] fills the slot, a handler that returns
    without touching [res] leaves it empty.

    Several handlers are wrapped in [asyncWrapper]; what such a handler
    throws leaves it as the [Exc] outcome of its run, which is what the
    wrapper receives.  Identifiers are well-formed [ObjectId]s and
    collections list their documents in insertion order. *)

From Stdlib Require Import ZArith List String Ascii Bool Lia.
From Stdlib Require Import Permutation Sorted Strings.Byte.
Import ListNotations.

Open Scope string_scope.
Open Scope Z_scope.

(** ** JavaScript values used by the handlers *)

Module Js.

(** Truthiness of a value that is either [undefined] or a string: the
    form fields and route parameters of the handlers. *)
Definition nonempty (s : string) : bool :=
  match s with EmptyString => false | String _ _ => true end.

Definition truthy (v : option string) : bool :=
  match v with
  | None => false
  | Some s => nonempty s
  end.

(** Numbers.  A JavaScript number is a double; the integers of magnitude
    at most 2^53 are doubles, and a sum, difference or product of two of
    them that stays in that range is computed exactly.  [Int z] is such an
    integer; [Other] stands for every other value ([NaN], an infinity, a
    fraction, a larger number), which this development does not
    interpret. *)
Inductive num := Int (z : Z) | Other.

Definition code (c : ascii) : Z := Z.of_nat (nat_of_ascii c).

Definition digit (c : ascii) : option Z :=
  let n := code c in
  if (48 <=? n) && (n <=? 57) then Some (n - 48) else None.

Definition hex_digit (c : ascii) : option Z :=
  let n := code c in
  if (48 <=? n) && (n <=? 57) then Some (n - 48)
  else if (97 <=? n) && (n <=? 102) then Some (n - 87)
  else if (65 <=? n) && (n <=? 70) then Some (n - 55)
  else None.

Definition digit_in (b : Z) (c : ascii) : option Z :=
  match hex_digit c with
  | Some d => if d <? b then Some d else None
  | None => None
  end.

Definition is_space (c : ascii) : bool :=
  let n := code c in ((9 <=? n) && (n <=? 13)) || (n =? 32).

Definition safe (z : Z) : bool := (- 2 ^ 53 <=? z) && (z <=? 2 ^ 53).

Definition int (z : Z) : num := if safe z then Int z else Other.

(** The double nearest to an integer, ties to the even significand: what
    an addition of two integer doubles yields from their exact sum, and
    what reading an integer literal yields.  Up to 2^53 in magnitude
    every integer is a double; beyond, 53 significant bits are kept.
    (Integers beyond the largest double, near 2^1024, are outside what is
    modelled.) *)
Definition round (z : Z) : Z :=
  let a := Z.abs z in
  if a <=? 2 ^ 53 then z
  else
    let e := Z.log2 a - 52 in
    let q := a / 2 ^ e in
    let r := a mod 2 ^ e in
    let half := 2 ^ (e - 1) in
    let q' := if r <? half then q
              else if half <? r then q + 1
              else if Z.even q then q else q + 1 in
    Z.sgn z * (q' * 2 ^ e).

Definition neg (a : num) : num :=
  match a with
  | Int x => Int (- x)
  | Other => Other
  end.

Definition sub (a b : num) : num :=
  match a, b with
  | Int x, Int y => int (x - y)
  | _, _ => Other
  end.

Definition mul (a b : num) : num :=
  match a, b with
  | Int x, Int y => int (x * y)
  | _, _ => Other
  end.

Fixpoint drop_space (l : list ascii) : list ascii :=
  match l with
  | [] => []
  | c :: l' => if is_space c then drop_space l' else l
  end.

Definition trim (l : list ascii) : list ascii :=
  rev (drop_space (rev (drop_space l))).

Fixpoint radix (b acc : Z) (l : list ascii) : option Z :=
  match l with
  | [] => Some acc
  | c :: l' =>
      match digit_in b c with
      | Some d => radix b (b * acc + d) l'
      | None => None
      end
  end.

Definition digits (b : Z) (l : list ascii) : option Z :=
  match l with
  | [] => None
  | _ :: _ => radix b 0 l
  end.

Fixpoint span_digits (l : list ascii) : list ascii * list ascii :=
  match l with
  | [] => ([], [])
  | c :: l' =>
      match digit c with
      | Some _ => let (ds, r) := span_digits l' in (c :: ds, r)
      | None => ([], l)
      end
  end.

Definition is_e (c : ascii) : bool := Ascii.eqb c "e" || Ascii.eqb c "E".

Definition exponent (l : list ascii) : option Z :=
  match l with
  | [] => Some 0
  | c :: r =>
      if is_e c then
        match r with
        | [] => None
        | s :: ds =>
            if Ascii.eqb s "+" then digits 10 ds
            else if Ascii.eqb s "-" then option_map Z.opp (digits 10 ds)
            else digits 10 r
        end
      else None
  end.

Definition scale (m k : Z) : num :=
  if 0 <=? k then int (m * 10 ^ k)
  else if m mod 10 ^ (- k) =? 0 then int (m / 10 ^ (- k))
  else Other.

Definition unsigned_decimal (l : list ascii) : num :=
  let (ip, r1) := span_digits l in
  let (fp, r2) :=
    match r1 with
    | c :: t => if Ascii.eqb c "." then span_digits t else ([], r1)
    | [] => ([], r1)
    end in
  match digits 10 (ip ++ fp), exponent r2 with
  | Some m, Some e => scale m (e - Z.of_nat (List.length fp))
  | _, _ => Other
  end.

Definition base_of (x : ascii) : option Z :=
  if Ascii.eqb x "x" || Ascii.eqb x "X" then Some 16
  else if Ascii.eqb x "o" || Ascii.eqb x "O" then Some 8
  else if Ascii.eqb x "b" || Ascii.eqb x "B" then Some 2
  else None.

Definition non_decimal (l : list ascii) : num :=
  match l with
  | c :: x :: ds =>
      if Ascii.eqb c "0" then
        match base_of x with
        | Some b =>
            match digits b ds with
            | Some v => int v
            | None => Other
            end
        | None => Other
        end
      else Other
  | _ => Other
  end.

Definition literal (l : list ascii) : num :=
  match l with
  | [] => Int 0
  | c :: u =>
      if Ascii.eqb c "+" then unsigned_decimal u
      else if Ascii.eqb c "-" then neg (unsigned_decimal u)
      else match unsigned_decimal l with
           | Int z => Int z
           | Other => non_decimal l
           end
  end.

(** [ToNumber] on a string, as applied by the operator [-]: white space
    around the numeral is dropped, the empty string is 0, and the numeral
    is a signed decimal literal, with optional fraction and exponent, or
    an unsigned hexadecimal, octal or binary literal. *)
Definition ToNumber (s : string) : num :=
  literal (trim (list_ascii_of_string s)).

(** Exceptions that reach a [catch] or escape a handler. *)
Inductive exn :=
| TypeError (message : string)
| ReferenceError (message : string)
| NotFoundError (message : string)
| IoError (message : string)
| QueryError (message : string)
| ValidationError (message : string)
| Uninterpreted (what : string).

(** [error.message].  [Uninterpreted] is not an exception of the program:
    it marks a run that leaves the fragment this development interprets
    (a pattern with special characters, a number that is not a small
    integer, a price range with one bound). *)
Definition message_of (e : exn) : string :=
  match e with
  | TypeError m | ReferenceError m | NotFoundError m
  | IoError m | QueryError m | ValidationError m | Uninterpreted m => m
  end.

(** [a || b] on strings. *)
Definition or_else (a b : string) : string :=
  if nonempty a then a else b.

End Js.

(** ** Documents *)

Definition ObjectId := N.
Definition bytes := list byte.

(** Modelled from the spec: the schema of [model/CategoryModel.js] is not
    part of the sources; a category has an identifier, a name and a slug
    (section 3). *)
Record Category := mkCategory {
  cat_id : ObjectId;
  cat_name : string;
  cat_slug : string
}.

Record Photo := mkPhoto {
  data : option bytes;
  contentType : option string
}.

(** Modelled from the spec: the schema of [model/ProductModel.js] is not
    part of the sources; the attributes and their types are those of the
    data model (section 3).  The record is parametric in the shape of the
    two fields a query can reshape: [category] (an identifier, or the
    document [populate] resolves it to) and [photo] (present, or dropped
    by [select("-photo")]). *)
Record ProductOf (C P : Type) := mkProduct {
  _id : ObjectId;
  name : string;
  slug : string;
  description : string;
  price : Z;
  category : C;
  quantity : Z;
  shipping : option bool;
  photo : P;
  createdAt : Z
}.

Arguments mkProduct {C P}.
Arguments _id {C P}.
Arguments name {C P}.
Arguments slug {C P}.
Arguments description {C P}.
Arguments price {C P}.
Arguments category {C P}.
Arguments quantity {C P}.
Arguments shipping {C P}.
Arguments photo {C P}.
Arguments createdAt {C P}.

Definition Product := ProductOf ObjectId Photo.

(** [select("-photo")] *)
Definition without_photo {C P} (p : ProductOf C P) : ProductOf C unit :=
  mkProduct (_id p) (name p) (slug p) (description p) (price p)
            (category p) (quantity p) (shipping p) tt (createdAt p).

Definition set_category {C D P} (c : D) (p : ProductOf C P) : ProductOf D P :=
  mkProduct (_id p) (name p) (slug p) (description p) (price p)
            c (quantity p) (shipping p) (photo p) (createdAt p).

Definition set_photo {C P Q} (ph : Q) (p : ProductOf C P) : ProductOf C Q :=
  mkProduct (_id p) (name p) (slug p) (description p) (price p)
            (category p) (quantity p) (shipping p) ph (createdAt p).

(** A line of the cart a client submits with a payment. *)
Record CartItem := mkCartItem {
  item_product : ObjectId;
  item_price : Z;
  item_quantity : Z
}.

(** ** The payment gateway *)

Record SaleRequest := mkSale {
  amount : Z;
  paymentMethodNonce : option string;
  submitForSettlement : bool
}.

Record GatewayResult := mkGatewayResult {
  gw_success : bool;
  gw_transaction : string
}.

(** The two arguments the gateway hands to the completion callback. *)
Record GatewayReply := mkReply {
  reply_error : option string;
  reply_result : option GatewayResult
}.

(** Modelled from the spec: the order schema is not part of the sources;
    an order holds the cart, the gateway's result and the buyer
    (section 3), the three fields the handler fills in. *)
Record Order := mkOrder {
  order_products : list CartItem;
  order_payment : GatewayResult;
  order_buyer : ObjectId
}.

(** ** The world a handler runs in *)

Inductive DbOp :=
| OpFind | OpFindOne | OpFindById
| OpFindByIdAndDelete | OpFindByIdAndUpdate
| OpSaveProduct | OpSaveOrder.

Record World := mkWorld {
  products : list Product;
  categories : list Category;
  orders : list Order;
  files : list (string * bytes);
  next_id : ObjectId;
  clock : Z;
  db_log : list DbOp;
  sales : list SaleRequest
}.

(** ** Responses *)

Inductive Body :=
| ErrorBody (error : string)
| ProductBody (message : string) (product : option Product)
| SingleBody (message : string)
             (product : option (ProductOf (option Category) unit))
| ListBody (products : list (ProductOf ObjectId unit))
| FilterBody (products : list Product)
| SearchBody (products : list (ProductOf ObjectId unit))
| FailBody (message : string)
| FailWithBody (message : string) (error : Js.exn)
| PhotoBody (content_type : option string) (payload : option bytes)
| OkBody
| GatewayErrorBody (error : option string).

Record Response := mkResponse {
  status : Z;
  body : Body
}.

Record State := mkState {
  world : World;
  sent : option Response
}.

(** ** The handler monad *)

Inductive result (A : Type) :=
| Val (a : A)
| Exc (e : Js.exn).

Arguments Val {A}.
Arguments Exc {A}.

Definition M (A : Type) : Type := State -> result A * State.

Definition ret {A} (a : A) : M A := fun s => (Val a, s).

Definition bind {A B} (m : M A) (k : A -> M B) : M B :=
  fun s =>
    match m s with
    | (Val a, s') => k a s'
    | (Exc e, s') => (Exc e, s')
    end.

Definition throw {A} (e : Js.exn) : M A := fun s => (Exc e, s).

(** [try { m } catch (error) { h error }].  [Uninterpreted] is not an
    exception of the program, so no handler of the program sees it. *)
Definition try_catch {A} (m : M A) (h : Js.exn -> M A) : M A :=
  fun s =>
    match m s with
    | (Val a, s') => (Val a, s')
    | (Exc (Js.Uninterpreted what), s') => (Exc (Js.Uninterpreted what), s')
    | (Exc e, s') => h e s'
    end.

Notation "x <- m ;; k" := (bind m (fun x => k))
  (at level 61, m at next level, right associativity).
Notation "m ;;; k" := (bind m (fun _ => k))
  (at level 61, right associativity).

Definition get_world : M World := fun s => (Val (world s), s).

(** [res.status(st).send(b)]; a second response on the same request is
    refused by the framework. *)
Definition send (st : Z) (b : Body) : M unit :=
  fun s =>
    match sent s with
    | None => (Val tt, mkState (world s) (Some (mkResponse st b)))
    | Some _ => (Exc (Js.IoError "Cannot set headers after they are sent to the client"), s)
    end.

Definition log_op (o : DbOp) : M unit :=
  fun s =>
    let w := world s in
    (Val tt,
     mkState (mkWorld (products w) (categories w) (orders w) (files w)
                      (next_id w) (clock w) (db_log w ++ [o]) (sales w))
             (sent s)).

Definition set_products (ps : list Product) : M unit :=
  fun s =>
    let w := world s in
    (Val tt,
     mkState (mkWorld ps (categories w) (orders w) (files w)
                      (next_id w) (clock w) (db_log w) (sales w))
             (sent s)).

(** A request starts with an empty response slot. *)
Definition run {A} (m : M A) (w : World) : result A * State :=
  m (mkState w None).

(** ** Collection operations of [ProductModel] *)

Module Db.

Definition has_id (i : ObjectId) (p : Product) : bool := N.eqb (_id p) i.

Fixpoint remove_first (i : ObjectId) (ps : list Product) : list Product :=
  match ps with
  | [] => []
  | p :: ps' => if has_id i p then ps' else p :: remove_first i ps'
  end.

(** [ProductModel.findById(id)] *)
Definition findById (i : ObjectId) : M (option Product) :=
  log_op OpFindById ;;;
  w <- get_world ;;
  ret (find (has_id i) (products w)).

(** [ProductModel.findByIdAndDelete(id)] *)
Definition findByIdAndDelete (i : ObjectId) : M (option Product) :=
  log_op OpFindByIdAndDelete ;;;
  w <- get_world ;;
  match find (has_id i) (products w) with
  | Some p => set_products (remove_first i (products w)) ;;; ret (Some p)
  | None => ret None
  end.

(** [ProductModel.find(filter)] for a filter given as a predicate. *)
Definition find_where (f : Product -> bool) : M (list Product) :=
  log_op OpFind ;;;
  w <- get_world ;;
  ret (filter f (products w)).

End Db.

(** ** Requests *)

Record FilterBodyReq := mkFilterReq {
  checked : option (list ObjectId);
  radio : option (list Z)
}.

(** ** Handlers *)

(** [DeleteProduct] *)
Definition DeleteProduct (id : ObjectId) : M unit :=
  deleted <- Db.findByIdAndDelete id ;;
  send 200 (ProductBody " Deleting the product successfully  " deleted).

(** [x.length] on a value that may be [undefined]. *)
Definition length_of {A} (x : option (list A)) : M Z :=
  match x with
  | Some l => ret (Z.of_nat (List.length l))
  | None => throw (Js.TypeError "Cannot read properties of undefined (reading 'length')")
  end.

Record FilterArgs := mkArgs {
  arg_category : option (list ObjectId);
  arg_price : option (option Z * option Z)
}.

Definition in_ids (l : list ObjectId) (i : ObjectId) : bool :=
  existsb (N.eqb i) l.

(** [ProductModel.find(args)].  What the query layer does with a price
    range whose second bound is [undefined] is not interpreted. *)
Definition find_args (a : FilterArgs) : M (list Product) :=
  let by_cat p :=
    match arg_category a with
    | Some ids => in_ids ids (category p)
    | None => true
    end in
  match arg_price a with
  | None => Db.find_where by_cat
  | Some (Some lo, Some hi) =>
      Db.find_where (fun p => by_cat p && (lo <=? price p) && (price p <=? hi))
  | Some _ =>
      log_op OpFind ;;;
      throw (Js.Uninterpreted "price range with an undefined bound")
  end.

(** [productFilter] *)
Definition productFilter (req : FilterBodyReq) : M unit :=
  n <- length_of (checked req) ;;
  let cat := if 0 <? n then checked req else None in
  m <- length_of (radio req) ;;
  let pr :=
    if m =? 0 then None
    else match radio req with
         | Some r => Some (nth_error r 0, nth_error r 1)
         | None => None
         end in
  try_catch
    (ps <- find_args (mkArgs cat pr) ;;
     send 201 (FilterBody ps))
    (fun _ => send 400 (FailBody "Error in filtering the products")).

(** [ProductModel.findOne({ slug })] *)
Definition findOne_slug (s : string) : M (option Product) :=
  log_op OpFindOne ;;;
  w <- get_world ;;
  ret (find (fun p => String.eqb (slug p) s) (products w)).

(** [.populate("category")]: the reference is replaced by the category
    document it names, or by [null] when there is none. *)
Definition populate {P} (cats : list Category) (p : ProductOf ObjectId P)
  : ProductOf (option Category) P :=
  set_category (find (fun c => N.eqb (cat_id c) (category p)) cats) p.

(** [getProduct] *)
Definition getProduct (slug : string) : M unit :=
  product <- findOne_slug slug ;;
  w <- get_world ;;
  send 200
       (SingleBody " Single the  Product Fetched  "
          (option_map (fun p => without_photo (populate (categories w) p))
                      product)).

(** [productPhotoContrller] *)
Definition productPhotoContrller (pid : ObjectId) : M unit :=
  try_catch
    (product <- Db.findById pid ;;
     match product with
     | Some p => send 200 (PhotoBody (contentType (photo p)) (data (photo p)))
     | None => ret tt
     end)
    (fun error => send 500 (FailWithBody "Error IN Getting  Photo  " error)).

(** ** Paginated list *)

(** A sort by [createdAt] does not say in which order two documents with
    the same creation time come out; the store decides.  [comes_first p q]
    is that decision. *)
Class TieBreak := {
  comes_first : Product -> Product -> bool
}.

Section Listing.

Context {ties : TieBreak}.

Fixpoint insert_desc (p : Product) (l : list Product) : list Product :=
  match l with
  | [] => [p]
  | q :: l' =>
      if (createdAt q <? createdAt p)
         || ((createdAt q =? createdAt p) && comes_first p q)
      then p :: q :: l'
      else q :: insert_desc p l'
  end.

(** [.sort({ createdAt: -1 })] *)
Fixpoint sort_desc (l : list Product) : list Product :=
  match l with
  | [] => []
  | p :: l' => insert_desc p (sort_desc l')
  end.

(** [find({}).select("-photo").skip(n).limit(k).sort({ createdAt: -1 })]:
    the query sorts, then skips, then limits, whatever the order of the
    calls that build it.  A negative skip is refused. *)
Definition find_page (skip : Js.num) (limit : nat)
  : M (list (ProductOf ObjectId unit)) :=
  log_op OpFind ;;;
  match skip with
  | Js.Int k =>
      if k <? 0 then throw (Js.QueryError "Skip value must be non-negative")
      else
        w <- get_world ;;
        ret (map without_photo
                 (firstn limit (skipn (Z.to_nat k) (sort_desc (products w)))))
  | Js.Other => throw (Js.Uninterpreted "skip that is not a small integer")
  end.

(** [productList]; [page - 1] applies [ToNumber] to the route parameter. *)
Definition productList (page_param : option string) : M unit :=
  try_catch
    (let perPage := 3%nat in
     let page :=
       match page_param with
       | Some s => if Js.nonempty s then Js.ToNumber s else Js.Int 1
       | None => Js.Int 1
       end in
     products <- find_page
                   (Js.mul (Js.sub page (Js.Int 1)) (Js.Int (Z.of_nat perPage)))
                   perPage ;;
     send 200 (ListBody products))
    (fun error => send 400 (FailWithBody "error in per page ctrl" error)).

End Listing.

(** ** Keyword search *)

Module Regex.

(** The fragment of the pattern language that is interpreted: a sequence
    of literal characters and dots.  A keyword with any other special
    character is left uninterpreted. *)
Inductive atom := Lit (c : ascii) | AnyChar.

Definition special : list ascii :=
  ["\"; "^"; "$"; "."; "|"; "?"; "*"; "+"; "("; ")"; "["; "]"; "{"; "}"]%char.

Definition is_special (c : ascii) : bool := existsb (Ascii.eqb c) special.

Definition compile_char (c : ascii) : option atom :=
  if Ascii.eqb c "." then Some AnyChar
  else if is_special c then None
  else Some (Lit c).

Fixpoint compile (s : string) : option (list atom) :=
  match s with
  | EmptyString => Some []
  | String c s' =>
      match compile_char c, compile s' with
      | Some a, Some r => Some (a :: r)
      | _, _ => None
      end
  end.

(** Case folding of the option ["i"], on the letters A to Z. *)
Definition lower (c : ascii) : ascii :=
  let n := nat_of_ascii c in
  if (Nat.leb 65 n && Nat.leb n 90)%bool then ascii_of_nat (n + 32) else c.

Definition atom_matches (a : atom) (c : ascii) : bool :=
  match a with
  | Lit l => Ascii.eqb (lower l) (lower c)
  | AnyChar => negb (Ascii.eqb c "010")
  end.

Fixpoint match_here (p : list atom) (t : list ascii) : bool :=
  match p, t with
  | [], _ => true
  | _ :: _, [] => false
  | a :: p', c :: t' => atom_matches a c && match_here p' t'
  end.

(** An unanchored pattern matches when it matches at some position. *)
Fixpoint search (p : list atom) (t : list ascii) : bool :=
  match_here p t ||
  match t with
  | [] => false
  | _ :: t' => search p t'
  end.

Definition test (p : list atom) (s : string) : bool :=
  search p (list_ascii_of_string s).

End Regex.

(** [find({ $or: [{ name: { $regex: keyword, $options: "i" } },
                  { description: { $regex: keyword, $options: "i" } }] })] *)
Definition find_regex (keyword : string) : M (list Product) :=
  match Regex.compile keyword with
  | Some p =>
      Db.find_where
        (fun pr => Regex.test p (name pr) || Regex.test p (description pr))
  | None =>
      log_op OpFind ;;;
      throw (Js.Uninterpreted "pattern outside the interpreted fragment")
  end.

(** [ProductSearch] *)
Definition ProductSearch (keyword : option string) : M unit :=
  match keyword with
  | Some k =>
      if Js.nonempty k then
        result <- find_regex k ;;
        send 200 (SearchBody (map without_photo result))
      else send 400 (FailBody "Keyword is required.")
  | None => send 400 (FailBody "Keyword is required.")
  end.

(** ** Create and update *)

(** What the handlers take from libraries and from the schema: the
    [slugify] package and the casts the schema applies to form values. *)
Class Externals := {
  slugify : string -> string;
  castNumber : string -> option Z;
  castBoolean : string -> option bool;
  castObjectId : string -> option ObjectId
}.

(** [req.fields] of a multipart form: every value is a string. *)
Record Fields := mkFields {
  f_name : option string;
  f_description : option string;
  f_price : option string;
  f_category : option string;
  f_quantity : option string;
  f_shipping : option string
}.

(** An uploaded file, as [req.files] describes it. *)
Record File := mkFile {
  size : Z;
  path : string;
  type : string
}.

Record FormReq := mkFormReq {
  fields : Fields;
  files_photo : option File
}.

Definition or_empty (v : option string) : string :=
  match v with Some s => s | None => "" end.

(** [fs.readFileSync(path)] *)
Definition readFileSync (p : string) : M bytes :=
  w <- get_world ;;
  match find (fun e => String.eqb (fst e) p) (files w) with
  | Some e => ret (snd e)
  | None => throw (Js.IoError "ENOENT: no such file or directory")
  end.

(** The photo a handler attaches to the document when a file came with
    the request. *)
Definition attach_photo (old : Photo) (photo : option File) : M Photo :=
  match photo with
  | Some f =>
      d <- readFileSync (path f) ;;
      ret (mkPhoto (Some d) (Some (type f)))
  | None => ret old
  end.

Section Mutations.

Context {ext : Externals}.

(** The values of [{ ...req.fields, slug }] after the schema's casts. *)
Record Cast := mkCast {
  c_name : string;
  c_slug : string;
  c_description : string;
  c_price : Z;
  c_category : ObjectId;
  c_quantity : Z;
  c_shipping : option bool
}.

Definition cast_fields (f : Fields) (slug : string) : option Cast :=
  match castNumber (or_empty (f_price f)),
        castObjectId (or_empty (f_category f)),
        castNumber (or_empty (f_quantity f)) with
  | Some p, Some c, Some q =>
      match f_shipping f with
      | None =>
          Some (mkCast (or_empty (f_name f)) slug
                       (or_empty (f_description f)) p c q None)
      | Some s =>
          match castBoolean s with
          | Some b =>
              Some (mkCast (or_empty (f_name f)) slug
                           (or_empty (f_description f)) p c q (Some b))
          | None => None
          end
      end
  | _, _, _ => None
  end.

(** [product.save()] on a document made by [new ProductModel(...)]. *)
Definition save_new (f : Fields) (slug : string) (ph : Photo) : M Product :=
  log_op OpSaveProduct ;;;
  match cast_fields f slug with
  | None => throw (Js.ValidationError "Product validation failed")
  | Some c =>
      fun s =>
        let w := world s in
        let p := mkProduct (next_id w) (c_name c) (c_slug c)
                           (c_description c) (c_price c) (c_category c)
                           (c_quantity c) (c_shipping c) ph (clock w) in
        (Val p,
         mkState (mkWorld (products w ++ [p]) (categories w) (orders w)
                          (files w) (N.succ (next_id w)) (clock w + 1)
                          (db_log w) (sales w))
                 (sent s))
  end.

(** [CreateProducts]; [upload] is the [photo] of [req.files]. *)
Definition CreateProducts (req : FormReq) : M unit :=
  let f := fields req in
  let upload := files_photo req in
  try_catch
    (if negb (Js.truthy (f_name f)) then
       throw (Js.NotFoundError "Name is Required")
     else if negb (Js.truthy (f_description f)) then
       throw (Js.NotFoundError "Description is Required")
     else if negb (Js.truthy (f_price f)) then
       throw (Js.NotFoundError "Price is Required")
     else if negb (Js.truthy (f_category f)) then
       throw (Js.NotFoundError "Category is Required")
     else if negb (Js.truthy (f_quantity f)) then
       throw (Js.NotFoundError "Quantity is Required")
     else if match upload with
             | None => true
             | Some ph => 1000000 <? size ph
             end then
       send 400 (ErrorBody "Photo is Required and should be less than 1MB")
     else
       ph <- attach_photo (mkPhoto None None) upload ;;
       product <- save_new f (slugify (or_empty (f_name f))) ph ;;
       send 200 (ProductBody "Product Created Successfully" (Some product)))
    (fun error =>
       send 500 (ErrorBody (Js.or_else (Js.message_of error)
                                       "Internal Server Error"))).

Definition apply_cast (c : Cast) (p : Product) : Product :=
  mkProduct (_id p) (c_name c) (c_slug c) (c_description c) (c_price c)
            (c_category c) (c_quantity c)
            (match c_shipping c with
             | Some b => Some b
             | None => shipping p
             end)
            (photo p) (createdAt p).

Fixpoint replace_first (i : ObjectId) (q : Product) (ps : list Product)
  : list Product :=
  match ps with
  | [] => []
  | p :: ps' => if Db.has_id i p then q :: ps' else p :: replace_first i q ps'
  end.

(** [findByIdAndUpdate(id, { ...req.fields, slug }, { new: true })] *)
Definition findByIdAndUpdate (i : ObjectId) (f : Fields) (slug : string)
  : M (option Product) :=
  log_op OpFindByIdAndUpdate ;;;
  match cast_fields f slug with
  | None => throw (Js.QueryError "Cast failed in update")
  | Some c =>
      w <- get_world ;;
      match find (Db.has_id i) (products w) with
      | Some p =>
          let q := apply_cast c p in
          set_products (replace_first i q (products w)) ;;; ret (Some q)
      | None => ret None
      end
  end.

(** [product.save()] on a document read from the collection. *)
Definition save_existing (p : Product) : M unit :=
  log_op OpSaveProduct ;;;
  w <- get_world ;;
  set_products (replace_first (_id p) p (products w)).

(** [UpdateProduct]; the [switch (true)] runs the first case whose
    expression is [true]. *)
Definition UpdateProduct (id : ObjectId) (req : FormReq) : M unit :=
  let f := fields req in
  let upload := files_photo req in
  if negb (Js.truthy (f_name f)) then
    send 500 (ErrorBody "Name is Required")
  else if negb (Js.truthy (f_description f)) then
    send 500 (ErrorBody "Description is Required")
  else if negb (Js.truthy (f_price f)) then
    send 500 (ErrorBody "Price is Required")
  else if negb (Js.truthy (f_category f)) then
    send 500 (ErrorBody "Category is Required")
  else if negb (Js.truthy (f_quantity f)) then
    send 500 (ErrorBody "Quantity is Required")
  else if match upload with
          | None => false
          | Some ph => 1000000 <? size ph
          end then
    send 500 (ErrorBody "Photo is Required and should be less than 1MB")
  else
    product <- findByIdAndUpdate id f (slugify (or_empty (f_name f))) ;;
    match product with
    | None =>
        match upload with
        | Some _ =>
            throw (Js.TypeError
                     "Cannot read properties of null (reading 'photo')")
        | None =>
            throw (Js.TypeError
                     "Cannot read properties of null (reading 'save')")
        end
    | Some p =>
        ph <- attach_photo (photo p) upload ;;
        let p' := set_photo ph p in
        save_existing p' ;;;
        send 201 (ProductBody "Product Updated Successfully" (Some p'))
    end.

End Mutations.

(** ** Payment *)

Record PaymentReq := mkPaymentReq {
  nonce : option string;
  cart : option (list CartItem);
  user_id : ObjectId
}.

(** The identifiers the controller module binds: its imports, [gateway]
    and the handlers it declares. *)
Definition module_scope : list string :=
  [ "slugify"; "NotFoundError"; "asyncWrapper"; "ProductModel";
    "CategoryModels"; "fs"; "braintree"; "dotenv"; "gateway";
    "CreateProducts"; "getAllProducts"; "DeleteProduct"; "getProduct";
    "UpdateProduct"; "productPhotoContrller"; "productFilter";
    "productCounter"; "productList"; "ProductSearch"; "relatedProduct";
    "productCategroyController"; "braintreeTokenController";
    "brainTreePaymentController" ].

(** Evaluating an identifier: one the scope does not bind raises a
    [ReferenceError]. *)
Definition resolve (scope : list string) (x : string) : M unit :=
  if existsb (String.eqb x) scope then ret tt
  else throw (Js.ReferenceError (x ++ " is not defined")).

(** [new orderModel({...}).save()] *)
Definition save_order (o : Order) : M unit :=
  log_op OpSaveOrder ;;;
  fun s =>
    let w := world s in
    (Val tt,
     mkState (mkWorld (products w) (categories w) (orders w ++ [o]) (files w)
                      (next_id w) (clock w) (db_log w) (sales w))
             (sent s)).

(** [gateway.transaction.sale(request, callback)]: the request goes out. *)
Definition transaction_sale (r : SaleRequest) : M unit :=
  fun s =>
    let w := world s in
    (Val tt,
     mkState (mkWorld (products w) (categories w) (orders w) (files w)
                      (next_id w) (clock w) (db_log w) (sales w ++ [r]))
             (sent s)).

(** [cart.map((i) => { total += i.price })] from [total = 0], on prices
    that are integers: each price is the double read from the body, and
    each addition yields the double nearest to the exact sum. *)
Definition cart_total (c : list CartItem) : Z :=
  fold_left (fun total i => Js.round (total + Js.round (item_price i))) c 0.

Section Payment.

(** What the gateway answers to a sale request. *)
Variable gateway : SaleRequest -> GatewayReply.

(** The completion callback of the sale.  It runs after the handler's
    [try] block has been left, so what it throws is not caught there. *)
Definition sale_callback (scope : list string) (c : list CartItem)
           (buyer : ObjectId) (reply : GatewayReply) : M unit :=
  match reply_result reply with
  | Some result =>
      resolve scope "orderModel" ;;;
      save_order (mkOrder c result buyer) ;;;
      send 200 OkBody
  | None => send 500 (GatewayErrorBody (reply_error reply))
  end.

Definition brainTreePaymentController_in (scope : list string)
           (req : PaymentReq) : M unit :=
  submitted <-
    try_catch
      (match cart req with
       | Some c =>
           let total := cart_total c in
           let request := mkSale total (nonce req) true in
           transaction_sale request ;;;
           ret (Some (c, request))
       | None =>
           throw (Js.TypeError
                    "Cannot read properties of undefined (reading 'map')")
       end)
      (fun _ => ret None) ;;
  match submitted with
  | Some (c, request) => sale_callback scope c (user_id req) (gateway request)
  | None => ret tt
  end.

(** [brainTreePaymentController] *)
Definition brainTreePaymentController : PaymentReq -> M unit :=
  brainTreePaymentController_in module_scope.

End Payment.

(** ** Reading the outcome of a run *)

Definition response_of {A} (r : result A * State) : option Response :=
  sent (snd r).

Definition world_of {A} (r : result A * State) : World :=
  world (snd r).


Definition logged (o : DbOp) (w : World) : World :=
  mkWorld (products w) (categories w) (orders w) (files w)
          (next_id w) (clock w) (db_log w ++ [o]) (sales w).

Definition charged (r : SaleRequest) (w : World) : World :=
  mkWorld (products w) (categories w) (orders w) (files w)
          (next_id w) (clock w) (db_log w) (sales w ++ [r]).

Definition ordered (o : Order) (w : World) : World :=
  mkWorld (products w) (categories w) (orders w ++ [o]) (files w)
          (next_id w) (clock w) (db_log w) (sales w).

Definition answered (w : World) (st : Z) (b : Body) : State :=
  mkState w (Some (mkResponse st b)).

(** Identifiers are unique in a collection. *)
Definition unique_ids (w : World) : Prop :=
  NoDup (map (fun p : Product => _id p) (products w)).

Definition newest_first (l : list Product) : Prop :=
  StronglySorted (fun a b => createdAt b <= createdAt a) l.

(** ** The specification's reading of validation and of search *)

(** The required inputs of a create request, in the order in which the
    specification lists them. *)
Inductive Required :=
| RName | RDescription | RPrice | RCategory | RQuantity | RPhoto.

Definition required_order : list Required :=
  [RName; RDescription; RPrice; RCategory; RQuantity; RPhoto].

Definition is_missing (req : FormReq) (r : Required) : bool :=
  match r with
  | RName => negb (Js.truthy (f_name (fields req)))
  | RDescription => negb (Js.truthy (f_description (fields req)))
  | RPrice => negb (Js.truthy (f_price (fields req)))
  | RCategory => negb (Js.truthy (f_category (fields req)))
  | RQuantity => negb (Js.truthy (f_quantity (fields req)))
  | RPhoto => match files_photo req with None => true | Some _ => false end
  end.

Definition first_missing (req : FormReq) : option Required :=
  find (is_missing req) required_order.

Definition required_message (r : Required) : string :=
  match r with
  | RName => "Name is Required"
  | RDescription => "Description is Required"
  | RPrice => "Price is Required"
  | RCategory => "Category is Required"
  | RQuantity => "Quantity is Required"
  | RPhoto => "Photo is Required and should be less than 1MB"
  end.

(** The status the create handler answers with when [r] is missing. *)
Definition create_status (r : Required) : Z :=
  match r with
  | RPhoto => 400
  | _ => 500
  end.

(** The five form fields are all present. *)
Definition fields_present (req : FormReq) : Prop :=
  Js.truthy (f_name (fields req)) = true /\
  Js.truthy (f_description (fields req)) = true /\
  Js.truthy (f_price (fields req)) = true /\
  Js.truthy (f_category (fields req)) = true /\
  Js.truthy (f_quantity (fields req)) = true.

Definition validation_messages : list string :=
  map required_message required_order.

Definition client_error (st : Z) : Prop := 400 <= st < 500.




(** A keyword none of whose characters is special in a pattern. *)
Definition plain_keyword (k : string) : bool :=
  forallb (fun c => negb (Regex.is_special c)) (list_ascii_of_string k).

(** ** Numerals *)

(** The value of each digit character. *)
Definition digit_table : list (ascii * Z) :=
  [("0", 0); ("1", 1); ("2", 2); ("3", 3); ("4", 4); ("5", 5); ("6", 6);
   ("7", 7); ("8", 8); ("9", 9);
   ("a", 10); ("b", 11); ("c", 12); ("d", 13); ("e", 14); ("f", 15);
   ("A", 10); ("B", 11); ("C", 12); ("D", 13); ("E", 14); ("F", 15)]%char.

Definition digit_denotes (b : Z) (c : ascii) (d : Z) : Prop :=
  In (c, d) digit_table /\ d < b.

(** [denotes b l v]: the digits [l], read in base [b], most significant
    first, have value [v]. *)
Inductive denotes (b : Z) : list ascii -> Z -> Prop :=
| denotes_one c d : digit_denotes b c d -> denotes b [c] d
| denotes_more l v c d :
    denotes b l v -> digit_denotes b c d -> denotes b (l ++ [c]) (b * v + d).

Inductive digits_opt : list ascii -> Z -> Prop :=
| digits_none : digits_opt [] 0
| digits_some l v : denotes 10 l v -> digits_opt l v.

Definition exponent_mark (c : ascii) : Prop := c = "e"%char \/ c = "E"%char.

Inductive exponent_part : list ascii -> Z -> Prop :=
| exponent_absent : exponent_part [] 0
| exponent_plain c ds e :
    exponent_mark c -> denotes 10 ds e -> exponent_part (c :: ds) e
| exponent_plus c ds e :
    exponent_mark c -> denotes 10 ds e ->
    exponent_part (c :: "+"%char :: ds) e
| exponent_minus c ds e :
    exponent_mark c -> denotes 10 ds e ->
    exponent_part (c :: "-"%char :: ds) (- e).

(** [mantissa m mv n]: the digits of [m], without the point, have value
    [mv], and [n] of them follow the point. *)
Inductive mantissa : list ascii -> Z -> Z -> Prop :=
| mantissa_whole ip i : denotes 10 ip i -> mantissa ip i 0
| mantissa_point ip i fp f :
    digits_opt ip i -> digits_opt fp f -> (ip ++ fp)%list <> [] ->
    mantissa (ip ++ "."%char :: fp)
             (i * 10 ^ Z.of_nat (List.length fp) + f)
             (Z.of_nat (List.length fp)).

(** An unsigned decimal literal with an integer value [v]:
    [v = mv * 10 ^ (e - n)], written without division. *)
Inductive unsigned_literal : list ascii -> Z -> Prop :=
| unsigned_intro m mv n ex e v :
    mantissa m mv n -> exponent_part ex e ->
    v * 10 ^ n * 10 ^ Z.max 0 (- e) = mv * 10 ^ Z.max 0 e ->
    unsigned_literal (m ++ ex) v.

Inductive literal_value : list ascii -> Z -> Prop :=
| literal_empty : literal_value [] 0
| literal_plain u v : unsigned_literal u v -> literal_value u v
| literal_plus u v : unsigned_literal u v -> literal_value ("+"%char :: u) v
| literal_minus u v :
    unsigned_literal u v -> literal_value ("-"%char :: u) (- v)
| literal_hex x ds v :
    x = "x"%char \/ x = "X"%char -> denotes 16 ds v ->
    literal_value ("0"%char :: x :: ds) v
| literal_octal x ds v :
    x = "o"%char \/ x = "O"%char -> denotes 8 ds v ->
    literal_value ("0"%char :: x :: ds) v
| literal_binary x ds v :
    x = "b"%char \/ x = "B"%char -> denotes 2 ds v ->
    literal_value ("0"%char :: x :: ds) v.

Definition white_space : list ascii :=
  ["009"; "010"; "011"; "012"; "013"; " "]%char.

(** [numeral s v]: the string [s] is a numeral for the integer [v], as the
    language reads a string as a number. *)
Definition numeral (s : string) (v : Z) : Prop :=
  exists l body r,
    list_ascii_of_string s = (l ++ body ++ r)%list /\
    Forall (fun c => In c white_space) l /\
    Forall (fun c => In c white_space) r /\
    literal_value body v.

(** Readings of the numeral reader used in its proof. *)
Definition is_digit (c : ascii) : Prop := exists d, Js.digit c = Some d.

Definition stops (r : list ascii) : Prop :=
  match r with
  | [] => True
  | c :: _ => Js.digit c = None
  end.

Definition plain (c : ascii) : Prop := Js.is_space c = false.

(** The page a request asks for: page 1 when the parameter is absent or
    empty, else the integer it is a numeral of, as long as the offset
    [(p - 1) * 3] is computed exactly. *)
Definition asks_page (page_param : option string) (p : Z) : Prop :=
  (Js.truthy page_param = false /\ p = 1) \/
  (exists s, page_param = Some s /\ s <> EmptyString /\
             numeral s p /\ (p - 1) * 3 <= 2 ^ 53).

(** ** What an answer shows of a record *)

(** [v] carries the fields of [p], category and photo aside. *)
Definition same_fields {C D P Q} (v : ProductOf C P) (p : ProductOf D Q)
  : Prop :=
  _id v = _id p /\ name v = name p /\ slug v = slug p /\
  description v = description p /\ price v = price p /\
  quantity v = quantity p /\ shipping v = shipping p /\
  createdAt v = createdAt p.

(** [x] is the first element of [l] with the property; no element of
    [l] has the property. *)
Definition first_with {A} (P : A -> Prop) (l : list A) (x : A) : Prop :=
  exists before after,
    l = (before ++ x :: after)%list /\ P x /\
    forall y, In y before -> ~ P y.

Definition none_with {A} (P : A -> Prop) (l : list A) : Prop :=
  forall y, In y l -> ~ P y.

(** [c] is what a reference to the category [i] resolves to. *)
Definition resolves (cats : list Category) (i : ObjectId)
           (c : option Category) : Prop :=
  match c with
  | Some x => first_with (fun y => cat_id y = i) cats x
  | None => none_with (fun y => cat_id y = i) cats
  end.

(** A record as a list shows it: by its fields and the reference to its
    category, the photo dropped. *)
Definition shows (v : ProductOf ObjectId unit) (p : Product) : Prop :=
  same_fields v p /\ category v = category p.

(** A record shown with its category resolved, the photo dropped. *)
Definition shows_resolved (cats : list Category)
           (v : ProductOf (option Category) unit) (p : Product) : Prop :=
  same_fields v p /\ resolves cats (category p) (category v).

(** A record shown with its category resolved and its photo. *)
Definition shows_whole (cats : list Category)
           (v : ProductOf (option Category) Photo) (p : Product) : Prop :=
  same_fields v p /\ photo v = photo p /\
  resolves cats (category p) (category v).

(** No two products of the collection were created at the same time. *)
Definition distinct_times (w : World) : Prop :=
  NoDup (map (fun p : Product => createdAt p) (products w)).

(** ** Sample data *)

Module Sample.

Definition item (i : N) (nm ds sl : string) (pr : Z) (t : Z) : Product :=
  mkProduct i nm sl ds pr 1%N 1 None
            (mkPhoto (Some [x89; x50]) (Some "image/png")) t.

Definition tea := item 1%N "abc" "xyz" "abc" 10 100.
Definition mug := item 2%N "Mug" "A blue MUG for tea" "Mug" 25 300.
Definition pot := item 3%N "Pot" "cast iron" "Pot" 40 200.
Definition cup := item 4%N "Cup" "small" "Cup" 5 600.
Definition jar := item 5%N "Jar" "glass" "Jar" 7 500.
Definition pan := item 6%N "Pan" "steel" "Pan" 30 400.
Definition lid := item 7%N "Lid" "fits the pot" "Lid" 3 700.

Definition kitchen : Category := mkCategory 1%N "Kitchen" "kitchen".

Definition shop (ps : list Product) : World :=
  mkWorld ps [kitchen] [] [("/tmp/upload_1", [x89; x50])] 100%N 1000 [] [].

Definition small : World := shop [tea; mug].
Definition full : World := shop [tea; mug; pot; cup; jar; pan; lid].

Definition form (nm ds pr ct qt : option string) (ph : option File)
  : FormReq :=
  mkFormReq (mkFields nm ds pr ct qt None) ph.

Definition png (n : Z) : File := mkFile n "/tmp/upload_1" "image/png".

(** One choice of the library functions, to run the handlers with. *)
Definition id_of (s : string) : option ObjectId :=
  match Js.ToNumber s with
  | Js.Int z => if 0 <=? z then Some (Z.to_N z) else None
  | Js.Other => None
  end.

Definition number_of (s : string) : option Z :=
  match Js.ToNumber s with
  | Js.Int z => Some z
  | Js.Other => None
  end.

Definition bool_of (s : string) : option bool :=
  if String.eqb s "true" then Some true
  else if String.eqb s "false" then Some false
  else None.

Definition externals : Externals :=
  Build_Externals (fun s => s) number_of bool_of id_of.

Definition accepts : SaleRequest -> GatewayReply :=
  fun _ => mkReply None (Some (mkGatewayResult true "txn-1")).

Definition declines : SaleRequest -> GatewayReply :=
  fun _ => mkReply (Some "gateway unavailable") None.

Definition basket : list CartItem :=
  [mkCartItem 1%N 10 1; mkCartItem 2%N 25 3].

Definition checkout : PaymentReq :=
  mkPaymentReq (Some "fake-valid-nonce") (Some basket) 42%N.

End Sample.

(** ** Handlers whose answers have further shapes *)

(** The bodies sent by [getAllProducts], [relatedProduct] and
    [productCategroyController]. *)
Inductive ViewBody :=
| AllBody (countTotal : Z) (message : string)
          (products : list (ProductOf (option Category) unit))
| RelatedBody (products : list (ProductOf (option Category) unit))
| CategoryBody (category : Category)
               (products : list (ProductOf (option Category) Photo))
| NoCategoryBody (message : string)
| CategoryErrorBody (error : Js.exn) (message : string).

Record ViewResponse := mkViewResponse {
  view_status : Z;
  view_body : ViewBody
}.

Record ViewState := mkViewState {
  view_world : World;
  view_sent : option ViewResponse
}.

(** The handler monad again, over the response slot of these handlers. *)
Definition V (A : Type) : Type := ViewState -> result A * ViewState.

Definition vret {A} (a : A) : V A := fun s => (Val a, s).

Definition vbind {A B} (m : V A) (k : A -> V B) : V B :=
  fun s =>
    match m s with
    | (Val a, s') => k a s'
    | (Exc e, s') => (Exc e, s')
    end.

Definition vtry_catch {A} (m : V A) (h : Js.exn -> V A) : V A :=
  fun s =>
    match m s with
    | (Val a, s') => (Val a, s')
    | (Exc (Js.Uninterpreted what), s') => (Exc (Js.Uninterpreted what), s')
    | (Exc e, s') => h e s'
    end.

Definition vsend (st : Z) (b : ViewBody) : V unit :=
  fun s =>
    match view_sent s with
    | None => (Val tt, mkViewState (view_world s) (Some (mkViewResponse st b)))
    | Some _ => (Exc (Js.IoError "Cannot set headers after they are sent to the client"), s)
    end.

(** A collection operation run from such a handler: it acts on the world
    and leaves the response slot alone. *)
Definition query {A} (m : M A) : V A :=
  fun s =>
    match m (mkState (view_world s) None) with
    | (r, s') => (r, mkViewState (world s') (view_sent s))
    end.

Definition view {A} (m : V A) (w : World) : result A * ViewState :=
  m (mkViewState w None).

Section ListingAll.

Context {ties : TieBreak}.

(** [find({}).limit(k).sort({ createdAt: -1 })] *)
Definition find_newest (limit : nat) : M (list Product) :=
  log_op OpFind ;;;
  w <- get_world ;;
  ret (firstn limit (sort_desc (products w))).

(** [getAllProducts] *)
Definition getAllProducts : V unit :=
  vbind (query (find_newest 12)) (fun found =>
  vbind (query get_world) (fun w =>
  let products :=
    map (fun p => without_photo (populate (categories w) p)) found in
  vsend 200 (AllBody (Z.of_nat (List.length products)) "All Products"
                     products))).

End ListingAll.

(** The filter [{ category: cid, _id: { $ne: pid } }]. *)
Definition related_to (pid cid : ObjectId) (p : Product) : bool :=
  N.eqb (category p) cid && negb (N.eqb (_id p) pid).

(** [relatedProduct] *)
Definition relatedProduct (pid cid : ObjectId) : V unit :=
  vbind (query (Db.find_where (related_to pid cid))) (fun found =>
  vbind (query get_world) (fun w =>
  vsend 200
        (RelatedBody
           (map (fun p => without_photo (populate (categories w) p))
                (firstn 4 found))))).

(** [CategoryModels.findOne({ slug })] *)
Definition findOne_category (s : string) : M (option Category) :=
  log_op OpFindOne ;;;
  w <- get_world ;;
  ret (find (fun c => String.eqb (cat_slug c) s) (categories w)).

(** [productCategroyController] *)
Definition productCategroyController (slug : string) : V unit :=
  vtry_catch
    (vbind (query (findOne_category slug)) (fun resolved =>
     match resolved with
     | None => vsend 404 (NoCategoryBody "Category not found")
     | Some c =>
         vbind (query (Db.find_where
                         (fun p => N.eqb (category p) (cat_id c))))
               (fun found =>
         vbind (query get_world) (fun w =>
         vsend 200 (CategoryBody c (map (populate (categories w)) found))))
     end))
    (fun error =>
       vsend 500 (CategoryErrorBody error
                                    "Error while getting Category Product")).

(** ** Readings used by the further properties *)

Definition ids_of (ps : list Product) : list ObjectId :=
  map (fun p : Product => _id p) ps.

(** The first of the five form fields that an update request lacks. *)
Definition first_missing_field (req : FormReq) : option Required :=
  find (is_missing req) [RName; RDescription; RPrice; RCategory; RQuantity].

(** The validation that refuses a request whose photo is too large: that
    of the first missing form field, else that of the photo; and the
    status the create handler gives it. *)
Definition oversized_message (req : FormReq) : string :=
  match first_missing_field req with
  | Some r => required_message r
  | None => required_message RPhoto
  end.

Definition oversized_create_status (req : FormReq) : Z :=
  match first_missing_field req with
  | Some _ => 500
  | None => 400
  end.

(** The photo that comes with a request passes the size check. *)
Definition photo_within_bound (req : FormReq) : Prop :=
  match files_photo req with
  | Some ph => size ph <= 1000000
  | None => True
  end.

(** What the filter handler is asked for: a set of categories, empty for
    any, and a price range, empty for any. *)
Definition wanted (cats : list ObjectId) (range : list Z) (p : Product) : bool :=
  (match cats with
   | [] => true
   | _ :: _ => in_ids cats (category p)
   end)
  &&
  (match range with
   | lo :: hi :: _ => (lo <=? price p) && (price p <=? hi)
   | _ => true
   end).

Definition same_letters (k k' : string) : Prop :=
  map Regex.lower (list_ascii_of_string k) =
  map Regex.lower (list_ascii_of_string k').

(** The photo of a document after the handler has attached the file of
    the request, if any; [None] when the file cannot be read. *)
Definition photo_after (w : World) (req : FormReq) (old : Photo)
  : option Photo :=
  match files_photo req with
  | None => Some old
  | Some f =>
      match find (fun e => String.eqb (fst e) (path f)) (files w) with
      | Some e => Some (mkPhoto (Some (snd e)) (Some (type f)))
      | None => None
      end
  end.

(** The prices of a cart are integers of magnitude at most 2^53, and so
    is every running total: each addition the handler makes is exact. *)
Definition exact_cart (c : list CartItem) : Prop :=
  Forall (fun i => - 2 ^ 53 <= item_price i <= 2 ^ 53) c /\
  forall n,
    - 2 ^ 53 <= fold_right Z.add 0 (map item_price (firstn n c)) <= 2 ^ 53.

(** A run left the collections and the files as they were. *)
Definition untouched (w w' : World) : Prop :=
  products w' = products w /\ categories w' = categories w /\
  orders w' = orders w /\ files w' = files w.

(** The record a successful create writes, and the world after it. *)
Definition new_record (w : World) (c : Cast) (ph : Photo) : Product :=
  mkProduct (next_id w) (c_name c) (c_slug c) (c_description c) (c_price c)
            (c_category c) (c_quantity c) (c_shipping c) ph (clock w).

Definition created (p : Product) (w : World) : World :=
  mkWorld (products w ++ [p]) (categories w) (orders w) (files w)
          (N.succ (next_id w)) (clock w + 1)
          (db_log w ++ [OpSaveProduct]) (sales w).

Module Demo.

Definition garden : Category := mkCategory 2%N "Garden" "garden".

Definition hose : Product :=
  mkProduct 8%N "Hose" "Hose" "ten metres" 15 2%N 4 (Some true)
            (mkPhoto None None) 800.

Definition rake : Product :=
  mkProduct 9%N "Rake" "Rake" "steel teeth" 12 2%N 2 None
            (mkPhoto (Some [xff; xd8]) (Some "image/jpeg")) 900.

Definition store : World :=
  mkWorld [Sample.tea; hose; Sample.mug; rake; Sample.pot; Sample.cup;
           Sample.jar; Sample.pan]
          [Sample.kitchen; garden] []
          [("/tmp/upload_1", [x89; x50])] 100%N 1000 [] [].

Definition kettle (ph : option File) : FormReq :=
  mkFormReq (mkFields (Some "Kettle") (Some "for tea") (Some "30")
                      (Some "1") (Some "2") (Some "true")) ph.

Definition no_cart : PaymentReq :=
  mkPaymentReq (Some "fake-valid-nonce") None 42%N.

(** Two stores that differ in how they order documents of the same
    creation time. *)
Definition by_arrival : TieBreak := Build_TieBreak (fun _ _ => true).
Definition latest_arrival_first : TieBreak := Build_TieBreak (fun _ _ => false).

(** A second product under the slug of the mug, in a category the shop
    does not have. *)
Definition twin : Product :=
  mkProduct 12%N "Mug two" "Mug" "second mug" 9 2%N 1 None
            (mkPhoto None None) 50.

Definition twins : World := Sample.shop [Sample.tea; Sample.mug; twin].

(** A record of the kitchen category as a list shows it. *)
Definition card (i : N) (nm ds : string) (pr : Z) (t : Z)
  : ProductOf ObjectId unit :=
  mkProduct i nm nm ds pr 1%N 1 None tt t.

End Demo.

(** ** Proof support *)

Ltac unfold_monad :=
  unfold run, answered, logged, bind, ret, throw, try_catch, get_world,
    send, log_op, set_products, response_of, world_of in *.

Ltac step_handler := unfold_monad; cbn [fst snd world sent] in *.

Ltac step_view :=
  unfold view, query, vbind, vret, vsend, vtry_catch in *;
  unfold_monad; cbn [fst snd world sent view_world view_sent] in *.

Ltac table_cases H :=
  unfold digit_table in H; cbn [In] in H;
  repeat (destruct H as [H|H]; [injection H as <- <-|]); [..|contradiction].

Ltac pick :=
  unfold digit_denotes, white_space, digit_table; cbn [In];
  try (split; [|lia]);
  repeat (first [left; reflexivity | right]).

Create HintDb catalogue.

(** * Properties of the collection operations *)

Lemma find_has_id_sound (i : ObjectId) (ps : list Product) (p : Product) :
  find (Db.has_id i) ps = Some p -> In p ps /\ _id p = i.
Proof.
  intros H. apply find_some in H. destruct H as [Hin Hid].
  split; [assumption|]. unfold Db.has_id in Hid. now apply N.eqb_eq in Hid.
Qed.

Lemma find_has_id_none (i : ObjectId) (ps : list Product) :
  find (Db.has_id i) ps = None <-> ~ In i (map (fun p : Product => _id p) ps).
Proof.
  induction ps as [|p ps IH]; cbn.
  - split; [intros _ []|reflexivity].
  - unfold Db.has_id at 1. destruct (N.eqb_spec (_id p) i) as [E|E].
    + split; [discriminate|]. intros H. exfalso. apply H. now left.
    + rewrite IH. split.
      * intros H [H1|H1]; [now apply E|now apply H].
      * intros H H1. apply H. now right.
Qed.

Lemma remove_first_absent (i : ObjectId) (ps : list Product) :
  find (Db.has_id i) ps = None -> Db.remove_first i ps = ps.
Proof.
  induction ps as [|p ps IH]; cbn; [reflexivity|].
  destruct (Db.has_id i p); [discriminate|].
  intros H. now rewrite IH.
Qed.

Lemma remove_first_gone (i : ObjectId) (ps : list Product) :
  NoDup (map (fun p : Product => _id p) ps) ->
  find (Db.has_id i) (Db.remove_first i ps) = None.
Proof.
  induction ps as [|p ps IH]; cbn; [reflexivity|].
  intros H. inversion H as [|x l Hnotin Hnd]; subst.
  destruct (Db.has_id i p) eqn:E.
  - unfold Db.has_id in E. apply N.eqb_eq in E. subst i.
    now apply find_has_id_none.
  - cbn. rewrite E. now apply IH.
Qed.

Lemma remove_first_keeps (i : ObjectId) (ps : list Product) (p : Product) :
  In p ps -> _id p <> i -> In p (Db.remove_first i ps).
Proof.
  induction ps as [|q ps IH]; cbn; [tauto|].
  intros [H|H] Hne.
  - subst q. unfold Db.has_id. destruct (N.eqb_spec (_id p) i); [contradiction|].
    now left.
  - destruct (Db.has_id i q); [assumption|]. right. now apply IH.
Qed.

#[export] Hint Resolve remove_first_gone remove_first_keeps
  remove_first_absent : catalogue.

(** * Delete *)

(** C9: a delete request answers 200 with the record that carried the
    identifier just before (null when there was none), the record is gone
    from the collection afterwards, every other record stays, and a request
    for an identifier that is absent changes nothing and does not fail. *)
Theorem DeleteProduct_returns_previous_record (w : World) (id : ObjectId) :
  unique_ids w ->
  exists w',
    run (DeleteProduct id) w =
      (Val tt,
       answered w' 200
         (ProductBody " Deleting the product successfully  "
                      (find (Db.has_id id) (products w)))) /\
    (forall p, find (Db.has_id id) (products w) = Some p ->
               In p (products w) /\ _id p = id) /\
    products w' = Db.remove_first id (products w) /\
    find (Db.has_id id) (products w') = None /\
    (forall p, In p (products w) -> _id p <> id -> In p (products w')) /\
    (find (Db.has_id id) (products w) = None -> products w' = products w).
Proof.
  intros Huniq. unfold unique_ids in Huniq.
  unfold DeleteProduct, Db.findByIdAndDelete. step_handler. cbn.
  destruct (find (Db.has_id id) (products w)) as [p|] eqn:Hfind; cbn;
    (eexists; split; [reflexivity|]; cbn).
  - split; [|split; [reflexivity|split; [|split]]].
    + intros q Hq. injection Hq as <-. now apply find_has_id_sound.
    + auto with catalogue.
    + auto with catalogue.
    + discriminate.
  - split; [discriminate|]. split; [|split; [assumption|split]].
    + symmetry. now apply remove_first_absent.
    + auto.
    + reflexivity.
Qed.

Lemma DeleteProduct_returns_previous_record_witness :
  unique_ids Sample.small /\
  exists w',
    run (DeleteProduct 1%N) Sample.small =
      (Val tt,
       answered w' 200
         (ProductBody " Deleting the product successfully  "
                      (Some Sample.tea))) /\
    products w' = [Sample.mug].
Proof.
  assert (H : unique_ids Sample.small).
  { unfold unique_ids. cbn. repeat constructor; cbn; intuition discriminate. }
  split; [exact H|].
  destruct (DeleteProduct_returns_previous_record Sample.small 1%N H)
    as [w' [Hrun [_ [Hps _]]]].
  exists w'. split; [exact Hrun|exact Hps].
Defined.

(** * Filter *)

(** C10: when the body of a filter request has no [checked] field, or no
    [radio] field, the handler throws a [TypeError] before any operation on
    the collection: the log of operations is unchanged, nothing is sent,
    and the run ends in the exception. *)
Theorem productFilter_missing_field_throws (w : World) (req : FilterBodyReq) :
  checked req = None \/ radio req = None ->
  run (productFilter req) w =
    (Exc (Js.TypeError "Cannot read properties of undefined (reading 'length')"),
     mkState w None).
Proof.
  intros H. unfold productFilter, length_of. step_handler.
  destruct (checked req) as [c|]; [|reflexivity].
  destruct H as [H|H]; [discriminate|]. rewrite H. reflexivity.
Qed.

Lemma productFilter_missing_field_throws_witness :
  (checked (mkFilterReq (Some [1%N]) None) = None \/
   radio (mkFilterReq (Some [1%N]) None) = None) /\
  db_log (world_of (run (productFilter (mkFilterReq (Some [1%N]) None))
                        Sample.small)) = [] /\
  response_of (run (productFilter (mkFilterReq (Some [1%N]) None))
                   Sample.small) = None.
Proof.
  assert (H : checked (mkFilterReq (Some [1%N]) None) = None \/
              radio (mkFilterReq (Some [1%N]) None) = None)
    by (right; reflexivity).
  split; [exact H|].
  rewrite (productFilter_missing_field_throws Sample.small _ H).
  split; reflexivity.
Defined.

(** * Photo *)

Lemma productPhotoContrller_found (w : World) (pid : ObjectId) (p : Product) :
  find (Db.has_id pid) (products w) = Some p ->
  run (productPhotoContrller pid) w =
    (Val tt,
     answered (logged OpFindById w) 200
              (PhotoBody (contentType (photo p)) (data (photo p)))).
Proof.
  intros H. unfold productPhotoContrller, Db.findById. step_handler. cbn.
  rewrite H. reflexivity.
Qed.

Lemma productPhotoContrller_absent (w : World) (pid : ObjectId) :
  find (Db.has_id pid) (products w) = None ->
  run (productPhotoContrller pid) w = (Val tt, mkState (logged OpFindById w) None).
Proof.
  intros H. unfold productPhotoContrller, Db.findById. step_handler. cbn.
  rewrite H. reflexivity.
Qed.

(** C8: a photo request for an identifier that no product carries ends
    without any response: the handler returns normally and the response
    slot is still empty, where the claim promises NotFound or an empty
    response. *)
Theorem productPhotoContrller_unknown_id_sends_nothing :
  find (Db.has_id 9%N) (products Sample.small) = None /\
  run (productPhotoContrller 9%N) Sample.small =
    (Val tt, mkState (logged OpFindById Sample.small) None) /\
  response_of (run (productPhotoContrller 9%N) Sample.small) = None.
Proof.
  repeat split; reflexivity.
Qed.

(** * Get by slug *)

Lemma find_first_with {A} (f : A -> bool) (P : A -> Prop)
      (l : list A) (x : A) :
  (forall y, f y = true <-> P y) ->
  find f l = Some x -> first_with P l x.
Proof.
  intros Hf. induction l as [|a l IH]; cbn; [discriminate|].
  destruct (f a) eqn:E.
  - intros H. injection H as <-. exists [], l.
    split; [reflexivity|]. split; [now apply Hf|]. intros y [].
  - intros H. destruct (IH H) as (before & after & -> & Hx & Hbefore).
    exists (a :: before), after. split; [reflexivity|].
    split; [assumption|]. intros y [<-|Hy]; [|now apply Hbefore].
    intros Hy. apply Hf in Hy. congruence.
Qed.

Lemma find_none_with {A} (f : A -> bool) (P : A -> Prop) (l : list A) :
  (forall y, f y = true <-> P y) ->
  find f l = None -> none_with P l.
Proof.
  intros Hf H y Hin Hy. apply Hf in Hy.
  pose proof (find_none _ _ H y Hin). congruence.
Qed.

Lemma populate_resolves {P} (cats : list Category) (p : ProductOf ObjectId P) :
  resolves cats (category p) (category (populate cats p)).
Proof.
  unfold resolves, populate. cbn.
  destruct (find (fun c => N.eqb (cat_id c) (category p)) cats) as [c|] eqn:H.
  - apply (find_first_with _ _ _ _ (fun y => N.eqb_eq (cat_id y) (category p))).
    exact H.
  - apply (find_none_with _ _ _ (fun y => N.eqb_eq (cat_id y) (category p))).
    exact H.
Qed.

Lemma without_photo_shows (p : Product) : shows (without_photo p) p.
Proof. repeat split. Qed.

Lemma map_without_photo_shows (l : list Product) :
  Forall2 shows (map without_photo l) l.
Proof.
  induction l as [|p l IH]; cbn; constructor.
  - apply without_photo_shows.
  - exact IH.
Qed.

Lemma without_photo_shows_resolved (cats : list Category) (p : Product) :
  shows_resolved cats (without_photo (populate cats p)) p.
Proof.
  split; [repeat split|]. apply (populate_resolves cats p).
Qed.

Lemma populate_shows_whole (cats : list Category) (p : Product) :
  shows_whole cats (populate cats p) p.
Proof.
  split; [repeat split|]. split; [reflexivity|]. apply populate_resolves.
Qed.

Lemma getProduct_run (w : World) (s : string) :
  run (getProduct s) w =
    (Val tt,
     answered (logged OpFindOne w) 200
       (SingleBody " Single the  Product Fetched  "
          (option_map (fun p => without_photo (populate (categories w) p))
                      (find (fun p => String.eqb (slug p) s) (products w))))).
Proof.
  unfold getProduct, findOne_slug. step_handler. reflexivity.
Qed.

(** C2, as the code has it: a request by slug always answers 200; when a
    product has the slug, the answer carries one product, the first of the
    collection with that slug: it has the fields of that product, its
    category is resolved to the category document the product refers to
    (null when there is none) and the photo is dropped; when no product has
    the slug, the answer carries null. *)
Theorem getProduct_answers_match_or_null (w : World) (s : string) :
  exists found,
    run (getProduct s) w =
      (Val tt,
       answered (logged OpFindOne w) 200
                (SingleBody " Single the  Product Fetched  " found)) /\
    match found with
    | Some v =>
        exists p,
          first_with (fun q : Product => slug q = s) (products w) p /\
          same_fields v p /\
          resolves (categories w) (category p) (category v) /\
          photo v = tt
    | None => none_with (fun q : Product => slug q = s) (products w)
    end.
Proof.
  rewrite getProduct_run.
  destruct (find (fun p => String.eqb (slug p) s) (products w)) as [p|] eqn:H;
    cbn [option_map]; eexists; (split; [reflexivity|]).
  - exists p.
    split.
    + apply (find_first_with _ _ _ _ (fun q => String.eqb_eq (slug q) s)).
      exact H.
    + destruct (without_photo_shows_resolved (categories w) p) as [Hf Hr].
      split; [exact Hf|]. split; [exact Hr|reflexivity].
  - apply (find_none_with _ _ _ (fun q => String.eqb_eq (slug q) s)).
    exact H.
Qed.

Lemma getProduct_answers_match_or_null_witness :
  exists found p,
    run (getProduct "Mug") Demo.twins =
      (Val tt,
       answered (logged OpFindOne Demo.twins) 200
                (SingleBody " Single the  Product Fetched  " found)) /\
    found = Some (mkProduct 2%N "Mug" "Mug" "A blue MUG for tea" 25
                            (Some Sample.kitchen) 1 None tt 300) /\
    first_with (fun q : Product => slug q = "Mug") (products Demo.twins) p /\
    same_fields (mkProduct 2%N "Mug" "Mug" "A blue MUG for tea" 25
                           (Some Sample.kitchen) 1 None tt 300) p.
Proof.
  destruct (getProduct_answers_match_or_null Demo.twins "Mug")
    as (found & Hrun & Hmatch).
  assert (E : run (getProduct "Mug") Demo.twins =
              (Val tt,
               answered (logged OpFindOne Demo.twins) 200
                 (SingleBody " Single the  Product Fetched  "
                    (Some (mkProduct 2%N "Mug" "Mug" "A blue MUG for tea" 25
                                     (Some Sample.kitchen) 1 None tt 300)))))
    by reflexivity.
  rewrite E in Hrun. injection Hrun as <-.
  destruct Hmatch as (p & Hfirst & Hsame & _).
  exists (Some (mkProduct 2%N "Mug" "Mug" "A blue MUG for tea" 25
                          (Some Sample.kitchen) 1 None tt 300)), p.
  split; [reflexivity|]. split; [reflexivity|].
  split; [exact Hfirst|exact Hsame].
Defined.

(** C2, the claim as written fails: no product of the collection has the
    slug, and the answer is a 200 with a null product, not a NotFound. *)
Lemma getProduct_unknown_slug_is_not_NotFound :
  (forall p, In p (products Sample.small) -> slug p <> "ghost") /\
  response_of (run (getProduct "ghost") Sample.small) =
    Some (mkResponse 200 (SingleBody " Single the  Product Fetched  " None)) /\
  ~ client_error 200.
Proof.
  split; [|split].
  - intros p [H|[H|[]]]; subst p; cbn; discriminate.
  - reflexivity.
  - unfold client_error. lia.
Qed.

(** * Payment *)

Lemma round_exact (z : Z) : - 2 ^ 53 <= z <= 2 ^ 53 -> Js.round z = z.
Proof.
  intros H. unfold Js.round.
  destruct (Z.leb_spec (Z.abs z) (2 ^ 53)) as [_|Hgt]; [reflexivity|lia].
Qed.

Lemma fold_prices_from (c : list CartItem) (a : Z) :
  Forall (fun i => - 2 ^ 53 <= item_price i <= 2 ^ 53) c ->
  (forall n,
     - 2 ^ 53 <= a + fold_right Z.add 0 (map item_price (firstn n c))
               <= 2 ^ 53) ->
  fold_left (fun total i => Js.round (total + Js.round (item_price i))) c a =
  a + fold_right Z.add 0 (map item_price c).
Proof.
  revert a. induction c as [|i c IH]; intros a Hp Hn; cbn.
  - lia.
  - inversion Hp as [|? ? Hi Hc]; subst.
    rewrite (round_exact (item_price i) Hi).
    rewrite (round_exact (a + item_price i)).
    + rewrite (IH _ Hc); [lia|].
      intros n. specialize (Hn (S n)). cbn in Hn. lia.
    + specialize (Hn 1%nat). cbn in Hn. lia.
Qed.

(** On a cart of exact additions the amount charged is the sum of the
    price fields; quantities do not enter it. *)
Lemma cart_total_is_sum_of_prices (c : list CartItem) :
  exact_cart c ->
  cart_total c = fold_right Z.add 0 (map item_price c).
Proof.
  intros [Hp Hn]. unfold cart_total.
  rewrite (fold_prices_from c 0 Hp); [lia|].
  intros n. specialize (Hn n). lia.
Qed.

(** Beyond 2^53 an addition rounds: a price of 1 added to a total of 2^53
    leaves it as it is. *)
Example cart_total_rounds_large_sums :
  cart_total [mkCartItem 1%N (2 ^ 53) 1; mkCartItem 2%N 1 1] = 2 ^ 53 /\
  cart_total [mkCartItem 1%N (2 ^ 53) 1; mkCartItem 2%N 3 1] = 2 ^ 53 + 4.
Proof. split; reflexivity. Qed.

Lemma payment_submits_total (gateway : SaleRequest -> GatewayReply)
      (scope : list string) (w : World) (req : PaymentReq) (c : list CartItem) :
  cart req = Some c ->
  sales (world_of (run (brainTreePaymentController_in gateway scope req) w)) =
    (sales w ++ [mkSale (cart_total c) (nonce req) true])%list.
Proof.
  intros Hc.
  unfold brainTreePaymentController_in, sale_callback, transaction_sale,
    save_order, resolve.
  step_handler. rewrite Hc. cbn.
  destruct (reply_result _); cbn; [|reflexivity].
  destruct (existsb _ scope); reflexivity.
Qed.

Lemma payment_submits_sum (gateway : SaleRequest -> GatewayReply)
      (scope : list string) (w : World) (req : PaymentReq) (c : list CartItem) :
  cart req = Some c ->
  exact_cart c ->
  sales (world_of (run (brainTreePaymentController_in gateway scope req) w)) =
    (sales w ++
     [mkSale (fold_right Z.add 0 (map item_price c)) (nonce req) true])%list.
Proof.
  intros Hc He. rewrite <- (cart_total_is_sum_of_prices c He).
  now apply payment_submits_total.
Qed.

(** When the gateway hands back no result, its error is sent with a 500
    and no order is written. *)
Lemma payment_failure_returns_error (gateway : SaleRequest -> GatewayReply)
      (scope : list string) (w : World) (req : PaymentReq) (c : list CartItem) :
  cart req = Some c ->
  reply_result (gateway (mkSale (cart_total c) (nonce req) true)) = None ->
  run (brainTreePaymentController_in gateway scope req) w =
    (Val tt,
     answered (charged (mkSale (cart_total c) (nonce req) true) w) 500
       (GatewayErrorBody
          (reply_error (gateway (mkSale (cart_total c) (nonce req) true))))).
Proof.
  intros Hc Hr.
  unfold brainTreePaymentController_in, sale_callback, transaction_sale.
  step_handler. rewrite Hc. cbn. rewrite Hr. reflexivity.
Qed.

(** In a scope that binds [orderModel], a result from the gateway writes
    exactly one order, with the cart, the result and the buyer. *)
Lemma payment_success_with_orderModel_bound
      (gateway : SaleRequest -> GatewayReply) (scope : list string)
      (w : World) (req : PaymentReq) (c : list CartItem) (r : GatewayResult) :
  cart req = Some c ->
  reply_result (gateway (mkSale (cart_total c) (nonce req) true)) = Some r ->
  existsb (String.eqb "orderModel") scope = true ->
  run (brainTreePaymentController_in gateway scope req) w =
    (Val tt,
     answered
       (ordered (mkOrder c r (user_id req))
          (logged OpSaveOrder
             (charged (mkSale (cart_total c) (nonce req) true) w)))
       200 OkBody).
Proof.
  intros Hc Hr Hs.
  unfold brainTreePaymentController_in, sale_callback, transaction_sale,
    save_order, resolve.
  rewrite Hs. step_handler. rewrite Hc. cbn. rewrite Hr. reflexivity.
Qed.

(** The controller module does not bind [orderModel]: on a result from
    the gateway the callback throws before any order is written and before
    any response is sent. *)
Lemma payment_success_throws (gateway : SaleRequest -> GatewayReply)
      (w : World) (req : PaymentReq) (c : list CartItem) (r : GatewayResult) :
  cart req = Some c ->
  reply_result (gateway (mkSale (cart_total c) (nonce req) true)) = Some r ->
  run (brainTreePaymentController gateway req) w =
    (Exc (Js.ReferenceError "orderModel is not defined"),
     mkState (charged (mkSale (cart_total c) (nonce req) true) w) None).
Proof.
  intros Hc Hr.
  unfold brainTreePaymentController, brainTreePaymentController_in,
    sale_callback, transaction_sale, save_order, resolve.
  step_handler. rewrite Hc. cbn. rewrite Hr. reflexivity.
Qed.

(** C1: the cart [{price:10},{price:25,quantity:3}] is charged 35, the
    gateway accepts the sale, and the handler ends in a [ReferenceError]:
    no order is written and no response is sent, where the claim promises
    exactly one order for the cart, the result and the buyer. *)
Theorem brainTreePaymentController_accepted_sale_writes_no_order :
  existsb (String.eqb "orderModel") module_scope = false /\
  run (brainTreePaymentController Sample.accepts Sample.checkout) Sample.small =
    (Exc (Js.ReferenceError "orderModel is not defined"),
     mkState (charged (mkSale 35 (Some "fake-valid-nonce") true) Sample.small)
             None) /\
  orders (world_of (run (brainTreePaymentController Sample.accepts
                                                    Sample.checkout)
                        Sample.small)) = [].
Proof.
  repeat split; reflexivity.
Qed.

(** * Create and update *)

Section MutationProperties.

Context {ext : Externals}.

(** C3, as the code has it: when a required input of a create request is
    missing, the answer is an error whose message names the first missing
    one in the order name, description, price, category, quantity,
    photo, whatever the other inputs are; the status is 500 for the five
    form fields and 400 for the photo, and nothing is written. *)
Theorem CreateProducts_names_first_missing
        (w : World) (req : FormReq) (r : Required) :
  first_missing req = Some r ->
  run (CreateProducts req) w =
    (Val tt, answered w (create_status r) (ErrorBody (required_message r))).
Proof.
  intros H. unfold first_missing in H. cbn in H.
  unfold CreateProducts. step_handler.
  destruct (Js.truthy (f_name (fields req))); cbn in *;
    [|injection H as <-; reflexivity].
  destruct (Js.truthy (f_description (fields req))); cbn in *;
    [|injection H as <-; reflexivity].
  destruct (Js.truthy (f_price (fields req))); cbn in *;
    [|injection H as <-; reflexivity].
  destruct (Js.truthy (f_category (fields req))); cbn in *;
    [|injection H as <-; reflexivity].
  destruct (Js.truthy (f_quantity (fields req))); cbn in *;
    [|injection H as <-; reflexivity].
  destruct (files_photo req); cbn in *; [discriminate|].
  injection H as <-. reflexivity.
Qed.

(** C4, as the code has it: a create request with the five form fields
    present and no photo file is refused with a 400 and the message that
    the photo is required; no product is written. *)
Theorem CreateProducts_requires_photo (w : World) (req : FormReq) :
  fields_present req ->
  files_photo req = None ->
  run (CreateProducts req) w =
    (Val tt,
     answered w 400
              (ErrorBody "Photo is Required and should be less than 1MB")).
Proof.
  intros (Hn & Hd & Hp & Hc & Hq) Hphoto.
  unfold CreateProducts. step_handler.
  rewrite Hn, Hd, Hp, Hc, Hq, Hphoto. reflexivity.
Qed.

Lemma CreateProducts_refuses_large_photo
      (w : World) (req : FormReq) (ph : File) :
  files_photo req = Some ph ->
  1000000 < size ph ->
  run (CreateProducts req) w =
    (Val tt,
     answered w (oversized_create_status req)
              (ErrorBody (oversized_message req))).
Proof.
  intros Hphoto Hsize. apply Z.ltb_lt in Hsize.
  unfold CreateProducts, oversized_create_status, oversized_message,
    first_missing_field.
  step_handler. rewrite Hphoto, Hsize. cbn.
  destruct (Js.truthy (f_name (fields req))); cbn; [|reflexivity].
  destruct (Js.truthy (f_description (fields req))); cbn; [|reflexivity].
  destruct (Js.truthy (f_price (fields req))); cbn; [|reflexivity].
  destruct (Js.truthy (f_category (fields req))); cbn; [|reflexivity].
  destruct (Js.truthy (f_quantity (fields req))); cbn; reflexivity.
Qed.

Lemma UpdateProduct_refuses_large_photo
      (w : World) (id : ObjectId) (req : FormReq) (ph : File) :
  files_photo req = Some ph ->
  1000000 < size ph ->
  run (UpdateProduct id req) w =
    (Val tt, answered w 500 (ErrorBody (oversized_message req))).
Proof.
  intros Hphoto Hsize. apply Z.ltb_lt in Hsize.
  unfold UpdateProduct, oversized_message, first_missing_field.
  step_handler. rewrite Hphoto, Hsize. cbn.
  destruct (Js.truthy (f_name (fields req))); cbn; [|reflexivity].
  destruct (Js.truthy (f_description (fields req))); cbn; [|reflexivity].
  destruct (Js.truthy (f_price (fields req))); cbn; [|reflexivity].
  destruct (Js.truthy (f_category (fields req))); cbn; [|reflexivity].
  destruct (Js.truthy (f_quantity (fields req))); cbn; reflexivity.
Qed.

(** C5, as the code has it: a create request and an update request that
    carry a photo of more than 1,000,000 bytes are both refused, whatever
    the other fields are, and the world is left as it was: no product is
    created or modified.  The error is that of the first missing form
    field, with status 500, when one is missing; else it is the photo
    error, with status 400 at create and 500 at update. *)
Theorem oversized_photo_is_rejected
        (w : World) (id : ObjectId) (req : FormReq) (ph : File) :
  files_photo req = Some ph ->
  1000000 < size ph ->
  run (CreateProducts req) w =
    (Val tt,
     answered w (oversized_create_status req)
              (ErrorBody (oversized_message req))) /\
  run (UpdateProduct id req) w =
    (Val tt, answered w 500 (ErrorBody (oversized_message req))) /\
  In (oversized_message req) validation_messages.
Proof.
  intros Hphoto Hsize. split; [|split].
  - now apply CreateProducts_refuses_large_photo with (ph := ph).
  - now apply UpdateProduct_refuses_large_photo with (ph := ph).
  - unfold oversized_message, validation_messages.
    destruct (first_missing_field req) as [[]|]; cbn; tauto.
Qed.

End MutationProperties.

Lemma CreateProducts_names_first_missing_witness :
  first_missing
    (Sample.form (Some "Kettle") None (Some "30") None (Some "2")
                 (Some (Sample.png 2048))) = Some RDescription /\
  run (@CreateProducts Sample.externals
         (Sample.form (Some "Kettle") None (Some "30") None (Some "2")
                      (Some (Sample.png 2048))))
      Sample.small =
    (Val tt, answered Sample.small 500 (ErrorBody "Description is Required")).
Proof.
  split; [reflexivity|].
  apply (@CreateProducts_names_first_missing Sample.externals Sample.small
           (Sample.form (Some "Kettle") None (Some "30") None (Some "2")
                        (Some (Sample.png 2048)))
           RDescription).
  reflexivity.
Defined.

(** C3, the claim as written fails: the name is missing, and the error
    that names it comes with a 500, which is not a 400-class status. *)
Lemma CreateProducts_missing_name_is_500 :
  first_missing
    (Sample.form None (Some "for tea") (Some "30") (Some "1") (Some "2")
                 (Some (Sample.png 2048))) = Some RName /\
  response_of
    (run (@CreateProducts Sample.externals
            (Sample.form None (Some "for tea") (Some "30") (Some "1")
                         (Some "2") (Some (Sample.png 2048))))
         Sample.small) =
    Some (mkResponse 500 (ErrorBody "Name is Required")) /\
  ~ client_error 500.
Proof.
  split; [reflexivity|]. split; [reflexivity|].
  unfold client_error. lia.
Qed.

Lemma CreateProducts_requires_photo_witness :
  fields_present
    (Sample.form (Some "Kettle") (Some "for tea") (Some "30") (Some "1")
                 (Some "2") None) /\
  run (@CreateProducts Sample.externals
         (Sample.form (Some "Kettle") (Some "for tea") (Some "30") (Some "1")
                      (Some "2") None))
      Sample.small =
    (Val tt,
     answered Sample.small 400
              (ErrorBody "Photo is Required and should be less than 1MB")).
Proof.
  assert (H : fields_present
                (Sample.form (Some "Kettle") (Some "for tea") (Some "30")
                             (Some "1") (Some "2") None))
    by (repeat split; reflexivity).
  split; [exact H|].
  apply (@CreateProducts_requires_photo Sample.externals Sample.small _ H).
  reflexivity.
Defined.

(** C4, the claim as written fails: every form field is present, no photo
    file comes with the request, and the request is refused; the
    collection holds the same products as before. *)
Lemma CreateProducts_without_photo_is_refused :
  fields_present
    (Sample.form (Some "Kettle") (Some "for tea") (Some "30") (Some "1")
                 (Some "2") None) /\
  files_photo
    (Sample.form (Some "Kettle") (Some "for tea") (Some "30") (Some "1")
                 (Some "2") None) = None /\
  response_of
    (run (@CreateProducts Sample.externals
            (Sample.form (Some "Kettle") (Some "for tea") (Some "30")
                         (Some "1") (Some "2") None))
         Sample.small) =
    Some (mkResponse 400
            (ErrorBody "Photo is Required and should be less than 1MB")) /\
  products
    (world_of
       (run (@CreateProducts Sample.externals
               (Sample.form (Some "Kettle") (Some "for tea") (Some "30")
                            (Some "1") (Some "2") None))
            Sample.small)) = products Sample.small.
Proof.
  repeat split; reflexivity.
Qed.

Lemma oversized_photo_is_rejected_witness :
  files_photo
    (Sample.form (Some "Kettle") (Some "for tea") (Some "30") (Some "1")
                 (Some "2") (Some (Sample.png 1000001))) =
    Some (Sample.png 1000001) /\
  1000000 < size (Sample.png 1000001) /\
  run (@CreateProducts Sample.externals
         (Sample.form (Some "Kettle") (Some "for tea") (Some "30")
                      (Some "1") (Some "2") (Some (Sample.png 1000001))))
      Sample.small =
    (Val tt,
     answered Sample.small 400
       (ErrorBody "Photo is Required and should be less than 1MB")) /\
  run (@UpdateProduct Sample.externals 1%N
         (Sample.form (Some "Kettle") (Some "for tea") (Some "30")
                      (Some "1") (Some "2") (Some (Sample.png 1000001))))
      Sample.small =
    (Val tt,
     answered Sample.small 500
       (ErrorBody "Photo is Required and should be less than 1MB")).
Proof.
  assert (Hsize : 1000000 < size (Sample.png 1000001)) by (cbn; lia).
  split; [reflexivity|]. split; [exact Hsize|].
  destruct (@oversized_photo_is_rejected Sample.externals Sample.small 1%N
              (Sample.form (Some "Kettle") (Some "for tea") (Some "30")
                           (Some "1") (Some "2") (Some (Sample.png 1000001)))
              (Sample.png 1000001) eq_refl Hsize) as [Hc [Hu _]].
  split; [exact Hc|exact Hu].
Defined.

(** C5, the claim as written fails: the photo has 1,000,001 bytes and
    every field is present; the update is refused with a 500, which is
    not the 400-class status of a validation error, and a create that also
    lacks its name is refused with a 500 as well. *)
Lemma oversized_photo_is_answered_500 :
  1000000 < size (Sample.png 1000001) /\
  response_of
    (run (@UpdateProduct Sample.externals 1%N
            (Sample.form (Some "Kettle") (Some "for tea") (Some "30")
                         (Some "1") (Some "2") (Some (Sample.png 1000001))))
         Sample.small) =
    Some (mkResponse 500
            (ErrorBody "Photo is Required and should be less than 1MB")) /\
  response_of
    (run (@CreateProducts Sample.externals
            (Sample.form None (Some "for tea") (Some "30")
                         (Some "1") (Some "2") (Some (Sample.png 1000001))))
         Sample.small) =
    Some (mkResponse 500 (ErrorBody "Name is Required")) /\
  ~ client_error 500.
Proof.
  split; [cbn; lia|]. split; [reflexivity|]. split; [reflexivity|].
  unfold client_error. lia.
Qed.

(** * Numerals *)

Lemma digit_denotes_in (b : Z) (c : ascii) (d : Z) :
  digit_denotes b c d -> Js.digit_in b c = Some d.
Proof.
  intros [H Hlt]. apply Z.ltb_lt in Hlt.
  table_cases H; unfold Js.digit_in;
    match goal with
    | |- context [Js.hex_digit ?c] =>
        let r := eval vm_compute in (Js.hex_digit c) in
        change (Js.hex_digit c) with r
    end; cbv beta iota; now rewrite Hlt.
Qed.

Lemma digit_denotes_decimal (c : ascii) (d : Z) :
  digit_denotes 10 c d -> Js.digit c = Some d.
Proof.
  intros [H Hlt]. table_cases H; try reflexivity; lia.
Qed.

Lemma digit_denotes_plain (b : Z) (c : ascii) (d : Z) :
  digit_denotes b c d ->
  Js.is_space c = false /\ Ascii.eqb c "+" = false /\
  Ascii.eqb c "-" = false /\ 0 <= d.
Proof.
  intros [H _]. table_cases H; repeat split; lia.
Qed.

Lemma radix_app (b acc : Z) (l1 l2 : list ascii) :
  Js.radix b acc (l1 ++ l2) =
  match Js.radix b acc l1 with
  | Some a => Js.radix b a l2
  | None => None
  end.
Proof.
  revert acc. induction l1 as [|c l1 IH]; intros acc; cbn; [reflexivity|].
  destruct (Js.digit_in b c); [apply IH|reflexivity].
Qed.

Lemma denotes_radix (b : Z) (l : list ascii) (v : Z) :
  denotes b l v ->
  forall acc,
    Js.radix b acc l = Some (acc * b ^ Z.of_nat (List.length l) + v).
Proof.
  induction 1 as [c d Hd|l v c d Hl IH Hd]; intros acc.
  - cbn [Js.radix List.length]. rewrite (digit_denotes_in _ _ _ Hd).
    f_equal. change (Z.of_nat 1) with 1. rewrite Z.pow_1_r. lia.
  - rewrite radix_app, IH. cbn [Js.radix].
    rewrite (digit_denotes_in _ _ _ Hd). f_equal.
    rewrite length_app. cbn [List.length].
    rewrite Nat2Z.inj_add, Z.pow_add_r by lia.
    change (Z.of_nat 1) with 1. rewrite Z.pow_1_r. lia.
Qed.

Lemma denotes_nonempty (b : Z) (l : list ascii) (v : Z) :
  denotes b l v -> l <> [].
Proof.
  destruct 1; [discriminate|]. now destruct l.
Qed.

Lemma denotes_digits (b : Z) (l : list ascii) (v : Z) :
  denotes b l v -> Js.digits b l = Some v.
Proof.
  intros H. pose proof (denotes_nonempty _ _ _ H) as Hne.
  unfold Js.digits. destruct l as [|c l]; [contradiction|].
  rewrite (denotes_radix _ _ _ H). reflexivity.
Qed.

Lemma denotes_nonneg (b : Z) (l : list ascii) (v : Z) :
  0 <= b -> denotes b l v -> 0 <= v.
Proof.
  intros Hb. induction 1 as [c d Hd|l v c d Hl IH Hd].
  - now destruct (digit_denotes_plain _ _ _ Hd) as (_ & _ & _ & H0).
  - destruct (digit_denotes_plain _ _ _ Hd) as (_ & _ & _ & H0). nia.
Qed.

Lemma denotes_all_digits (l : list ascii) (v : Z) :
  denotes 10 l v -> Forall is_digit l.
Proof.
  induction 1 as [c d Hd|l v c d Hl IH Hd].
  - constructor; [|constructor]. exists d. now apply digit_denotes_decimal.
  - apply Forall_app. split; [assumption|].
    constructor; [|constructor]. exists d. now apply digit_denotes_decimal.
Qed.

Lemma digits_opt_all_digits (l : list ascii) (v : Z) :
  digits_opt l v -> Forall is_digit l.
Proof.
  destruct 1; [constructor|]. eapply denotes_all_digits; eassumption.
Qed.

Lemma digits_opt_radix (l : list ascii) (v : Z) :
  digits_opt l v ->
  forall acc,
    Js.radix 10 acc l = Some (acc * 10 ^ Z.of_nat (List.length l) + v).
Proof.
  destruct 1 as [|l v H]; intros acc.
  - cbn. f_equal. lia.
  - now apply denotes_radix.
Qed.

Lemma span_digits_app (ds r : list ascii) :
  Forall is_digit ds -> stops r -> Js.span_digits (ds ++ r) = (ds, r).
Proof.
  intros Hds Hr. induction Hds as [|c ds [d Hc] _ IH]; cbn.
  - destruct r as [|c r]; [reflexivity|]. cbn in Hr. cbn. now rewrite Hr.
  - now rewrite Hc, IH.
Qed.

Lemma denotes_head (l : list ascii) (v : Z) :
  denotes 10 l v ->
  exists c t d,
    l = c :: t /\ Js.digit c = Some d /\
    Ascii.eqb c "+" = false /\ Ascii.eqb c "-" = false.
Proof.
  intros H. pose proof (denotes_nonempty _ _ _ H) as Hne.
  destruct l as [|c t]; [contradiction|].
  assert (Hd : exists d, digit_denotes 10 c d).
  { clear Hne. remember (c :: t) as l eqn:El. revert c t El.
    induction H as [c0 d Hd|l v c0 d Hl IH Hd]; intros c t El.
    - injection El as -> _. now exists d.
    - destruct l as [|a l]; [now apply denotes_nonempty in Hl|].
      injection El as -> _. now apply (IH c l). }
  destruct Hd as [d Hd]. exists c, t, d.
  destruct (digit_denotes_plain _ _ _ Hd) as (_ & Hp & Hm & _).
  repeat split; try assumption. now apply digit_denotes_decimal.
Qed.

Lemma exponent_part_read (ex : list ascii) (e : Z) :
  exponent_part ex e ->
  Js.exponent ex = Some e /\ stops ex /\
  match ex with
  | c :: _ => Ascii.eqb c "." = false
  | [] => True
  end.
Proof.
  destruct 1 as [|c ds e Hc Hd|c ds e Hc Hd|c ds e Hc Hd].
  - repeat split.
  - assert (Hmark : Js.is_e c = true /\ Js.digit c = None /\
                    Ascii.eqb c "." = false)
      by (destruct Hc as [-> | ->]; repeat split).
    destruct Hmark as (He & Hn & Hp).
    destruct (denotes_head _ _ Hd) as (a & t & d & -> & _ & Hplus & Hminus).
    unfold Js.exponent. rewrite He, Hplus, Hminus.
    rewrite (denotes_digits _ _ _ Hd). repeat split; assumption.
  - assert (Hmark : Js.is_e c = true /\ Js.digit c = None /\
                    Ascii.eqb c "." = false)
      by (destruct Hc as [-> | ->]; repeat split).
    destruct Hmark as (He & Hn & Hp).
    unfold Js.exponent. rewrite He. cbn [Ascii.eqb Bool.eqb].
    rewrite (denotes_digits _ _ _ Hd). repeat split; assumption.
  - assert (Hmark : Js.is_e c = true /\ Js.digit c = None /\
                    Ascii.eqb c "." = false)
      by (destruct Hc as [-> | ->]; repeat split).
    destruct Hmark as (He & Hn & Hp).
    unfold Js.exponent. rewrite He.
    change (Ascii.eqb "-" "+") with false. change (Ascii.eqb "-" "-") with true.
    cbv iota. rewrite (denotes_digits _ _ _ Hd). repeat split; assumption.
Qed.

Lemma int_safe (v : Z) : Js.safe v = true -> Js.int v = Js.Int v.
Proof. intros H. unfold Js.int. now rewrite H. Qed.

Lemma scale_value (mv n e v : Z) :
  0 <= n ->
  v * 10 ^ n * 10 ^ Z.max 0 (- e) = mv * 10 ^ Z.max 0 e ->
  Js.safe v = true ->
  Js.scale mv (e - n) = Js.Int v.
Proof.
  intros Hn Hv Hsafe. unfold Js.scale.
  assert (Hpos : forall k, 0 <= k -> 0 < 10 ^ k)
    by (intros k Hk; apply Z.pow_pos_nonneg; lia).
  destruct (Z.leb_spec 0 (e - n)) as [Hk|Hk].
  - rewrite Z.max_l, Z.max_r in Hv by lia.
    rewrite Z.pow_0_r, Z.mul_1_r in Hv.
    replace e with (n + (e - n)) in Hv at 1 by lia.
    rewrite Z.pow_add_r in Hv by lia.
    assert (E : v = mv * 10 ^ (e - n)).
    { pose proof (Hpos n Hn). nia. }
    rewrite <- E. now apply int_safe.
  - assert (E : mv = v * 10 ^ (- (e - n))).
    { replace (- (e - n)) with (n - e) by lia.
      destruct (Z.leb_spec 0 e) as [He|He].
      - rewrite Z.max_l, Z.max_r in Hv by lia.
        rewrite Z.pow_0_r, Z.mul_1_r in Hv.
        replace n with ((n - e) + e) in Hv at 1 by lia.
        rewrite Z.pow_add_r in Hv by lia.
        pose proof (Hpos e He). nia.
      - rewrite Z.max_r, Z.max_l in Hv by lia.
        rewrite Z.pow_0_r, Z.mul_1_r in Hv.
        replace (n - e) with (n + - e) by lia.
        rewrite Z.pow_add_r by lia. lia. }
    assert (Hnz : 10 ^ (- (e - n)) <> 0).
    { pose proof (Hpos (- (e - n))). lia. }
    rewrite E, Z.mod_mul, Z.div_mul by assumption.
    cbn [Z.eqb]. now apply int_safe.
Qed.

Lemma mantissa_read (m : list ascii) (mv n : Z) (ex : list ascii) :
  mantissa m mv n ->
  stops ex ->
  match ex with
  | c :: _ => Ascii.eqb c "." = false
  | [] => True
  end ->
  0 <= n /\
  forall e,
    Js.exponent ex = Some e ->
    Js.unsigned_decimal (m ++ ex) = Js.scale mv (e - n).
Proof.
  intros Hm Hstop Hdot.
  destruct Hm as [ip i Hi|ip i fp f Hi Hf Hne].
  - split; [lia|]. intros e He. unfold Js.unsigned_decimal.
    rewrite (span_digits_app ip ex (denotes_all_digits _ _ Hi) Hstop).
    assert (Hr : match ex with
                 | c :: t => if Ascii.eqb c "." then Js.span_digits t
                             else ([], ex)
                 | [] => ([], ex)
                 end = ([], ex)).
    { destruct ex as [|c t]; [reflexivity|]. now rewrite Hdot. }
    rewrite Hr, app_nil_r, (denotes_digits _ _ _ Hi), He. reflexivity.
  - split; [lia|]. intros e He. unfold Js.unsigned_decimal.
    rewrite <- app_assoc. cbn [app].
    rewrite (span_digits_app ip _ (digits_opt_all_digits _ _ Hi))
      by reflexivity.
    change (Ascii.eqb "." ".") with true. cbv iota.
    rewrite (span_digits_app fp ex (digits_opt_all_digits _ _ Hf) Hstop).
    assert (Hd : Js.digits 10 (ip ++ fp) =
                 Some (i * 10 ^ Z.of_nat (List.length fp) + f)).
    { unfold Js.digits.
      destruct (ip ++ fp)%list as [|c t] eqn:E; [contradiction|].
      rewrite <- E, radix_app, (digits_opt_radix _ _ Hi),
        (digits_opt_radix _ _ Hf).
      f_equal; lia. }
    rewrite Hd, He. reflexivity.
Qed.

Lemma unsigned_literal_read (u : list ascii) (v : Z) :
  unsigned_literal u v -> Js.safe v = true -> Js.unsigned_decimal u = Js.Int v.
Proof.
  intros [m mv n ex e v' Hm Hex Hv] Hsafe.
  destruct (exponent_part_read _ _ Hex) as (He & Hstop & Hdot).
  destruct (mantissa_read m mv n ex Hm Hstop Hdot) as [Hn Hread].
  rewrite (Hread e He). now apply scale_value.
Qed.

Lemma mantissa_head (m : list ascii) (mv n : Z) :
  mantissa m mv n ->
  exists c t, m = c :: t /\ Js.is_space c = false /\
              Ascii.eqb c "+" = false /\ Ascii.eqb c "-" = false.
Proof.
  assert (Hfirst : forall l v, denotes 10 l v ->
            exists c t, l = c :: t /\ Js.is_space c = false /\
                        Ascii.eqb c "+" = false /\ Ascii.eqb c "-" = false).
  { intros l v H. pose proof (denotes_nonempty _ _ _ H) as Hne.
    destruct l as [|c t]; [contradiction|]. clear Hne.
    assert (Hd : exists d, digit_denotes 10 c d).
    { remember (c :: t) as l eqn:El. revert c t El.
      induction H as [c0 d Hd|l v c0 d Hl IH Hd]; intros c t El.
      - injection El as -> _. now exists d.
      - destruct l as [|a l]; [now apply denotes_nonempty in Hl|].
        injection El as -> _. now apply (IH c l). }
    destruct Hd as [d Hd]. exists c, t.
    destruct (digit_denotes_plain _ _ _ Hd) as (Hs & Hp & Hm & _).
    repeat split; assumption. }
  destruct 1 as [ip i Hi|ip i fp f Hi Hf Hne].
  - now apply (Hfirst ip i).
  - destruct Hi as [|ip i Hi].
    + cbn. exists "."%char, fp. repeat split.
    + destruct (Hfirst ip i Hi) as (c & t & -> & H). cbn.
      exists c, (t ++ "."%char :: fp)%list. split; [reflexivity|exact H].
Qed.

Lemma safe_opp (v : Z) : Js.safe (- v) = Js.safe v.
Proof.
  unfold Js.safe. apply eq_true_iff_eq.
  rewrite !andb_true_iff, !Z.leb_le. lia.
Qed.

Lemma non_decimal_is_not_decimal (x : ascii) (ds : list ascii) (b : Z) :
  Js.base_of x = Some b ->
  Js.unsigned_decimal ("0"%char :: x :: ds) = Js.Other.
Proof.
  intros Hb.
  assert (Hx : Js.digit x = None /\ Ascii.eqb x "." = false /\
               Js.is_e x = false).
  { unfold Js.base_of in Hb.
    destruct (Ascii.eqb_spec x "x") as [->|_]; [repeat split|].
    destruct (Ascii.eqb_spec x "X") as [->|_]; [repeat split|].
    destruct (Ascii.eqb_spec x "o") as [->|_]; [repeat split|].
    destruct (Ascii.eqb_spec x "O") as [->|_]; [repeat split|].
    destruct (Ascii.eqb_spec x "b") as [->|_]; [repeat split|].
    destruct (Ascii.eqb_spec x "B") as [->|_]; [repeat split|].
    discriminate. }
  destruct Hx as (Hd & Hp & He).
  unfold Js.unsigned_decimal. cbn [Js.span_digits].
  change (Js.digit "0") with (Some 0). cbv iota. rewrite Hd. cbv iota beta.
  rewrite Hp. cbn [app Js.exponent]. rewrite He.
  destruct (Js.digits 10 ["0"%char]); reflexivity.
Qed.

Lemma literal_read (body : list ascii) (v : Z) :
  literal_value body v -> Js.safe v = true -> Js.literal body = Js.Int v.
Proof.
  assert (Hbased : forall x ds b v,
            Js.base_of x = Some b -> denotes b ds v -> Js.safe v = true ->
            Js.literal ("0"%char :: x :: ds) = Js.Int v).
  { intros x ds b w Hb Hd Hs. unfold Js.literal.
    change (Ascii.eqb "0" "+") with false.
    change (Ascii.eqb "0" "-") with false. cbv iota.
    rewrite (non_decimal_is_not_decimal x ds b Hb).
    unfold Js.non_decimal. change (Ascii.eqb "0" "0") with true. cbv iota.
    rewrite Hb, (denotes_digits _ _ _ Hd). now apply int_safe. }
  destruct 1 as [|u v Hu|u v Hu|u v Hu|x ds v Hx Hd|x ds v Hx Hd|x ds v Hx Hd];
    intros Hsafe.
  - reflexivity.
  - pose proof (unsigned_literal_read u v Hu Hsafe) as Hread.
    destruct Hu as [m mv n ex e v Hm Hex Hv].
    destruct (mantissa_head _ _ _ Hm) as (c & t & -> & _ & Hp & Hmin).
    cbn [app] in *. unfold Js.literal. rewrite Hp, Hmin, Hread. reflexivity.
  - unfold Js.literal. change (Ascii.eqb "+" "+") with true. cbv iota.
    now apply unsigned_literal_read.
  - unfold Js.literal. change (Ascii.eqb "-" "+") with false.
    change (Ascii.eqb "-" "-") with true. cbv iota.
    rewrite safe_opp in Hsafe.
    now rewrite (unsigned_literal_read u v Hu Hsafe).
  - apply (Hbased x ds 16 v); try assumption. now destruct Hx as [-> | ->].
  - apply (Hbased x ds 8 v); try assumption. now destruct Hx as [-> | ->].
  - apply (Hbased x ds 2 v); try assumption. now destruct Hx as [-> | ->].
Qed.

Lemma denotes_plain (b : Z) (l : list ascii) (v : Z) :
  denotes b l v -> Forall plain l.
Proof.
  induction 1 as [c d Hd|l v c d Hl IH Hd].
  - constructor; [|constructor]. now apply digit_denotes_plain in Hd.
  - apply Forall_app. split; [assumption|].
    constructor; [|constructor]. now apply digit_denotes_plain in Hd.
Qed.

Lemma digits_opt_plain (l : list ascii) (v : Z) :
  digits_opt l v -> Forall plain l.
Proof.
  destruct 1; [constructor|]. eapply denotes_plain; eassumption.
Qed.

Lemma literal_value_plain (body : list ascii) (v : Z) :
  literal_value body v -> Forall plain body.
Proof.
  assert (Hmark : forall c, exponent_mark c -> plain c)
    by (intros c [-> | ->]; reflexivity).
  assert (Hex : forall ex e, exponent_part ex e -> Forall plain ex).
  { intros ex e [|c ds e' Hc Hd|c ds e' Hc Hd|c ds e' Hc Hd].
    - constructor.
    - constructor; [now apply Hmark|]. eapply denotes_plain; eassumption.
    - constructor; [now apply Hmark|]. constructor; [reflexivity|].
      eapply denotes_plain; eassumption.
    - constructor; [now apply Hmark|]. constructor; [reflexivity|].
      eapply denotes_plain; eassumption. }
  assert (Hman : forall m mv n, mantissa m mv n -> Forall plain m).
  { intros m mv n [ip i Hi|ip i fp f Hi Hf Hne].
    - eapply denotes_plain; eassumption.
    - apply Forall_app. split; [eapply digits_opt_plain; eassumption|].
      constructor; [reflexivity|]. eapply digits_opt_plain; eassumption. }
  assert (Hun : forall u w, unsigned_literal u w -> Forall plain u).
  { intros u w [m mv n ex e w' Hm He Hv]. apply Forall_app. split.
    - eapply Hman; eassumption.
    - eapply Hex; eassumption. }
  destruct 1 as [|u v Hu|u v Hu|u v Hu|x ds v Hx Hd|x ds v Hx Hd|x ds v Hx Hd].
  - constructor.
  - eapply Hun; eassumption.
  - constructor; [reflexivity|]. eapply Hun; eassumption.
  - constructor; [reflexivity|]. eapply Hun; eassumption.
  - constructor; [reflexivity|].
    constructor; [destruct Hx as [-> | ->]; reflexivity|].
    eapply denotes_plain; eassumption.
  - constructor; [reflexivity|].
    constructor; [destruct Hx as [-> | ->]; reflexivity|].
    eapply denotes_plain; eassumption.
  - constructor; [reflexivity|].
    constructor; [destruct Hx as [-> | ->]; reflexivity|].
    eapply denotes_plain; eassumption.
Qed.

Lemma white_space_is_space (c : ascii) :
  In c white_space -> Js.is_space c = true.
Proof.
  unfold white_space. cbn [In].
  intros [<-|[<-|[<-|[<-|[<-|[<-|[]]]]]]]; reflexivity.
Qed.

Lemma drop_space_spaces (l rest : list ascii) :
  Forall (fun c => In c white_space) l ->
  Js.drop_space (l ++ rest) = Js.drop_space rest.
Proof.
  induction 1 as [|c l Hc _ IH]; cbn; [reflexivity|].
  now rewrite (white_space_is_space c Hc).
Qed.

Lemma drop_space_plain (l : list ascii) :
  Forall plain l -> forall rest,
  l <> [] -> Js.drop_space (l ++ rest) = (l ++ rest)%list.
Proof.
  intros Hl rest Hne. destruct Hl as [|c l Hc _]; [contradiction|].
  cbn. unfold plain in Hc. now rewrite Hc.
Qed.

Lemma drop_space_only_spaces (l : list ascii) :
  Forall (fun c => In c white_space) l -> Js.drop_space l = [].
Proof.
  intros H. rewrite <- (app_nil_r l), drop_space_spaces by assumption.
  reflexivity.
Qed.

Lemma trim_padded (l body r : list ascii) :
  Forall (fun c => In c white_space) l ->
  Forall (fun c => In c white_space) r ->
  Forall plain body ->
  Js.trim (l ++ body ++ r) = body.
Proof.
  intros Hl Hr Hb. unfold Js.trim. rewrite drop_space_spaces by assumption.
  destruct body as [|c t].
  - cbn [app]. rewrite (drop_space_only_spaces r Hr). reflexivity.
  - rewrite drop_space_plain by (assumption || discriminate).
    rewrite rev_app_distr.
    rewrite drop_space_spaces by (now apply Forall_rev).
    rewrite <- (app_nil_r (rev (c :: t))).
    rewrite drop_space_plain.
    + now rewrite app_nil_r, rev_involutive.
    + now apply Forall_rev.
    + cbn. now destruct (rev t).
Qed.

(** Every numeral that denotes an integer of magnitude at most 2^53 is
    read as that integer. *)
Lemma ToNumber_numeral (s : string) (v : Z) :
  numeral s v -> - 2 ^ 53 <= v <= 2 ^ 53 -> Js.ToNumber s = Js.Int v.
Proof.
  intros (l & body & r & Hs & Hl & Hr & Hv) Hrange.
  unfold Js.ToNumber. rewrite Hs.
  rewrite (trim_padded l body r Hl Hr (literal_value_plain _ _ Hv)).
  apply literal_read; [assumption|].
  unfold Js.safe. apply andb_true_iff. rewrite !Z.leb_le. lia.
Qed.

(** * Paginated list *)

Section ListingProperties.

Context {ties : TieBreak}.

Lemma insert_desc_perm (p : Product) (l : list Product) :
  Permutation (insert_desc p l) (p :: l).
Proof.
  induction l as [|q l IH]; cbn; [reflexivity|].
  destruct (_ || _); [reflexivity|].
  rewrite IH. apply perm_swap.
Qed.

Lemma sort_desc_perm (l : list Product) : Permutation (sort_desc l) l.
Proof.
  induction l as [|p l IH]; cbn; [reflexivity|].
  rewrite insert_desc_perm. now constructor.
Qed.

Lemma insert_desc_sorted (p : Product) (l : list Product) :
  newest_first l -> newest_first (insert_desc p l).
Proof.
  unfold newest_first.
  induction l as [|q l IH]; intros Hs; cbn.
  - constructor; constructor.
  - inversion Hs as [|x xs Hxs Hall]; subst.
    destruct ((createdAt q <? createdAt p)
              || ((createdAt q =? createdAt p) && comes_first p q)) eqn:E.
    + assert (Hle : createdAt q <= createdAt p).
      { apply orb_true_iff in E. destruct E as [E|E].
        - apply Z.ltb_lt in E. lia.
        - apply andb_true_iff in E. destruct E as [E _].
          apply Z.eqb_eq in E. lia. }
      constructor; [assumption|]. constructor; [assumption|].
      eapply Forall_impl; [|exact Hall]. cbn. intros a Ha. lia.
    + assert (Hle : createdAt p <= createdAt q).
      { apply orb_false_iff in E. destruct E as [E _].
        apply Z.ltb_ge in E. exact E. }
      constructor; [now apply IH|].
      apply (Permutation_Forall (Permutation_sym (insert_desc_perm p l))).
      constructor; [lia|assumption].
Qed.

Lemma sort_desc_sorted (l : list Product) : newest_first (sort_desc l).
Proof.
  induction l as [|p l IH]; cbn.
  - constructor.
  - now apply insert_desc_sorted.
Qed.

Lemma sort_desc_length (l : list Product) :
  List.length (sort_desc l) = List.length l.
Proof.
  apply Permutation_length, sort_desc_perm.
Qed.

Lemma second_page_of_six {A} (l : list A) :
  (6 <= List.length l)%nat ->
  exists a b c,
    nth_error l 3 = Some a /\ nth_error l 4 = Some b /\
    nth_error l 5 = Some c /\ firstn 3 (skipn 3 l) = [a; b; c].
Proof.
  intros H.
  do 6 (destruct l as [|? l]; [cbn in H; lia|]).
  cbn. eauto 10.
Qed.

Lemma asked_page_is_read (page_param : option string) (p : Z) :
  asks_page page_param p ->
  1 <= p ->
  match page_param with
  | Some s => if Js.nonempty s then Js.ToNumber s else Js.Int 1
  | None => Js.Int 1
  end = Js.Int p /\ (p - 1) * 3 <= 2 ^ 53.
Proof.
  intros [[Hfalsy ->]|[s [-> [Hne [Hnum Hbound]]]]] Hp.
  - split; [|lia]. destruct page_param as [s|]; [|reflexivity].
    cbn in Hfalsy. now rewrite Hfalsy.
  - split; [|assumption].
    destruct s as [|c s]; [contradiction|]. cbn [Js.nonempty].
    apply ToNumber_numeral; [assumption|lia].
Qed.

Lemma productList_run (w : World) (page_param : option string) (p : Z) :
  asks_page page_param p ->
  1 <= p ->
  run (productList page_param) w =
    (Val tt,
     answered (logged OpFind w) 200
       (ListBody
          (map without_photo
               (firstn 3 (skipn (Z.to_nat ((p - 1) * 3))
                                (sort_desc (products w))))))).
Proof.
  intros Hask Hp.
  destruct (asked_page_is_read page_param p Hask Hp) as [Hpage Hbound].
  assert (Hskip : ((p - 1) * 3 <? 0) = false) by (apply Z.ltb_ge; lia).
  assert (Hs1 : Js.safe (p - 1) = true).
  { unfold Js.safe. apply andb_true_iff. rewrite !Z.leb_le. lia. }
  assert (Hs2 : Js.safe ((p - 1) * 3) = true).
  { unfold Js.safe. apply andb_true_iff. rewrite !Z.leb_le. lia. }
  unfold productList, find_page. rewrite Hpage.
  unfold Js.mul, Js.sub, Js.int. rewrite Hs1.
  change (Z.of_nat 3) with 3. rewrite Hs2.
  step_handler. cbn [world sent]. rewrite Hskip. reflexivity.
Qed.

(** C6: a list request for page [p >= 1] (page 1 when the parameter is
    absent or empty, else the integer the parameter is a numeral of)
    answers 200 with products taken from the collection sorted by
    descending creation time: the first [(p - 1) * 3] are skipped and at
    most 3 follow; each is shown with its own fields and category
    reference and without its photo; with six or more records, page 2
    holds the records ranked 4 to 6.  This holds however the store orders
    products of the same creation time. *)
Theorem productList_returns_requested_page
        (w : World) (page_param : option string) (p : Z) :
  asks_page page_param p ->
  1 <= p ->
  exists sorted page answer,
    Permutation sorted (products w) /\
    newest_first sorted /\
    page = firstn 3 (skipn (Z.to_nat ((p - 1) * 3)) sorted) /\
    (List.length page <= 3)%nat /\
    run (productList page_param) w =
      (Val tt, answered (logged OpFind w) 200 (ListBody answer)) /\
    Forall2 shows answer page /\
    (p = 2 -> (6 <= List.length (products w))%nat ->
     exists a b c,
       nth_error sorted 3 = Some a /\ nth_error sorted 4 = Some b /\
       nth_error sorted 5 = Some c /\ page = [a; b; c]).
Proof.
  intros Hask Hp.
  exists (sort_desc (products w)).
  exists (firstn 3 (skipn (Z.to_nat ((p - 1) * 3)) (sort_desc (products w)))).
  eexists.
  split; [apply sort_desc_perm|].
  split; [apply sort_desc_sorted|].
  split; [reflexivity|].
  split; [apply firstn_le_length|].
  split; [exact (productList_run w page_param p Hask Hp)|].
  split; [apply map_without_photo_shows|].
  intros -> Hlen.
  change (Z.to_nat ((2 - 1) * 3)) with 3%nat.
  apply second_page_of_six.
  now rewrite sort_desc_length.
Qed.

End ListingProperties.

Lemma productList_returns_requested_page_witness :
  asks_page (Some "3") 3 /\ 1 <= 3 /\
  exists sorted page,
    Permutation sorted (products Sample.full) /\
    newest_first sorted /\
    page = firstn 3 (skipn 6 sorted) /\
    run (@productList Demo.by_arrival (Some "3")) Sample.full =
      (Val tt,
       answered (logged OpFind Sample.full) 200
                (ListBody [Demo.card 1%N "abc" "xyz" 10 100])) /\
    Forall2 shows [Demo.card 1%N "abc" "xyz" 10 100] page.
Proof.
  assert (Hask : asks_page (Some "3") 3).
  { right. exists "3". split; [reflexivity|]. split; [discriminate|].
    split; [|lia].
    exists [], ["3"%char], []. repeat split; try constructor.
    apply (unsigned_intro ["3"%char] 3 0 [] 0 3).
    - apply mantissa_whole, denotes_one. pick.
    - constructor.
    - reflexivity. }
  assert (Hp : 1 <= 3) by lia.
  split; [exact Hask|]. split; [exact Hp|].
  destruct (@productList_returns_requested_page Demo.by_arrival Sample.full
              (Some "3") 3 Hask Hp)
    as (sorted & page & answer & Hperm & Hsorted & Hpage & _ & Hrun
        & Hshows & _).
  assert (E : run (@productList Demo.by_arrival (Some "3")) Sample.full =
              (Val tt,
               answered (logged OpFind Sample.full) 200
                        (ListBody [Demo.card 1%N "abc" "xyz" 10 100])))
    by reflexivity.
  rewrite E in Hrun. injection Hrun as <-.
  exists sorted, page. repeat split; assumption.
Defined.

(** * Keyword search *)

Lemma compile_char_plain (c : ascii) :
  Regex.is_special c = false -> Regex.compile_char c = Some (Regex.Lit c).
Proof.
  intros H. unfold Regex.compile_char. rewrite H.
  destruct (Ascii.eqb c ".") eqn:E; [|reflexivity].
  apply Ascii.eqb_eq in E. subst c. discriminate.
Qed.

Lemma compile_plain (k : string) :
  plain_keyword k = true ->
  Regex.compile k = Some (map Regex.Lit (list_ascii_of_string k)).
Proof.
  unfold plain_keyword.
  induction k as [|c k IH]; cbn; [reflexivity|].
  intros H. apply andb_true_iff in H. destruct H as [Hc Hk].
  apply negb_true_iff in Hc.
  rewrite (compile_char_plain c Hc), (IH Hk). reflexivity.
Qed.

Lemma match_here_literal (k t : list ascii) :
  Regex.match_here (map Regex.Lit k) t = true <->
  exists post, map Regex.lower t = (map Regex.lower k ++ post)%list.
Proof.
  revert t. induction k as [|a k IH]; intros t; cbn.
  - split; [intros _; now exists (map Regex.lower t)|reflexivity].
  - destruct t as [|c t]; cbn.
    + split; [discriminate|]. intros [post H]. discriminate.
    + rewrite andb_true_iff, IH, Ascii.eqb_eq. split.
      * intros [Hc [post Hpost]]. exists post. now rewrite Hc, Hpost.
      * intros [post H]. injection H as Hc Ht. split; [now symmetry|].
        now exists post.
Qed.

Lemma search_literal (k t : list ascii) :
  Regex.search (map Regex.Lit k) t = true <->
  exists pre post,
    map Regex.lower t = (pre ++ map Regex.lower k ++ post)%list.
Proof.
  induction t as [|c t IH]; cbn [Regex.search].
  - rewrite orb_false_r, match_here_literal. split.
    + intros [post H]. now exists [], post.
    + intros [pre [post H]]. destruct pre as [|x pre]; [|discriminate].
      now exists post.
  - rewrite orb_true_iff, match_here_literal, IH. split.
    + intros [[post H]|[pre [post H]]].
      * now exists [], post.
      * exists (Regex.lower c :: pre), post. cbn. now rewrite H.
    + intros [pre [post H]]. destruct pre as [|x pre].
      * left. now exists post.
      * right. cbn in H. injection H as _ H. now exists pre, post.
Qed.




Lemma ProductSearch_rejects_empty (w : World) (keyword : option string) :
  Js.truthy keyword = false ->
  run (ProductSearch keyword) w =
    (Val tt, answered w 400 (FailBody "Keyword is required.")).
Proof.
  intros H. unfold ProductSearch.
  destruct keyword as [k|]; [|reflexivity].
  cbn in H. rewrite H. reflexivity.
Qed.




(** * Further properties of update and create *)

Lemma replace_first_ids (i : ObjectId) (q : Product) (ps : list Product) :
  _id q = i -> ids_of (replace_first i q ps) = ids_of ps.
Proof.
  intros Hq. unfold ids_of.
  induction ps as [|p ps IH]; cbn; [reflexivity|].
  destruct (Db.has_id i p) eqn:E; cbn.
  - unfold Db.has_id in E. apply N.eqb_eq in E. now rewrite Hq, E.
  - now rewrite IH.
Qed.

Lemma replace_first_again (i : ObjectId) (q q' : Product) (ps : list Product) :
  _id q = i ->
  replace_first i q' (replace_first i q ps) = replace_first i q' ps.
Proof.
  intros Hq. induction ps as [|p ps IH]; cbn; [reflexivity|].
  destruct (Db.has_id i p) eqn:E; cbn.
  - unfold Db.has_id. rewrite Hq, N.eqb_refl. reflexivity.
  - rewrite E. now rewrite IH.
Qed.

Lemma replace_first_found (i : ObjectId) (q p : Product) (ps : list Product) :
  _id q = i ->
  find (Db.has_id i) ps = Some p ->
  find (Db.has_id i) (replace_first i q ps) = Some q.
Proof.
  intros Hq. induction ps as [|x ps IH]; cbn; [discriminate|].
  destruct (Db.has_id i x) eqn:E; cbn.
  - intros _. unfold Db.has_id. now rewrite Hq, N.eqb_refl.
  - rewrite E. exact IH.
Qed.

Section FurtherMutationProperties.

Context {ext : Externals}.

Lemma cast_fields_keeps (f : Fields) (s : string) (c : Cast) :
  cast_fields f s = Some c ->
  c_slug c = s /\ c_name c = or_empty (f_name f) /\
  c_description c = or_empty (f_description f).
Proof.
  unfold cast_fields.
  destruct (castNumber (or_empty (f_price f))); [|discriminate].
  destruct (castObjectId (or_empty (f_category f))); [|discriminate].
  destruct (castNumber (or_empty (f_quantity f))); [|discriminate].
  destruct (f_shipping f) as [sh|].
  - destruct (castBoolean sh); [|discriminate].
    intros H. injection H as <-. repeat split.
  - intros H. injection H as <-. repeat split.
Qed.

(** An update request that lacks one of the five form fields is answered
    with a 500 whose message names the first one missing, in the order
    name, description, price, category, quantity; nothing is read or
    written. *)
Theorem UpdateProduct_names_first_missing_field
        (w : World) (id : ObjectId) (req : FormReq) (r : Required) :
  first_missing_field req = Some r ->
  run (UpdateProduct id req) w =
    (Val tt, answered w 500 (ErrorBody (required_message r))).
Proof.
  intros H. unfold first_missing_field in H. cbn in H.
  unfold UpdateProduct. step_handler.
  destruct (Js.truthy (f_name (fields req))); cbn in *;
    [|injection H as <-; reflexivity].
  destruct (Js.truthy (f_description (fields req))); cbn in *;
    [|injection H as <-; reflexivity].
  destruct (Js.truthy (f_price (fields req))); cbn in *;
    [|injection H as <-; reflexivity].
  destruct (Js.truthy (f_category (fields req))); cbn in *;
    [|injection H as <-; reflexivity].
  destruct (Js.truthy (f_quantity (fields req))); cbn in *;
    [|injection H as <-; reflexivity].
  discriminate.
Qed.

Lemma UpdateProduct_past_validation
      (w : World) (id : ObjectId) (req : FormReq) :
  fields_present req ->
  photo_within_bound req ->
  run (UpdateProduct id req) w =
    run (product <- findByIdAndUpdate id (fields req)
                      (slugify (or_empty (f_name (fields req)))) ;;
         match product with
         | None =>
             match files_photo req with
             | Some _ =>
                 throw (Js.TypeError
                          "Cannot read properties of null (reading 'photo')")
             | None =>
                 throw (Js.TypeError
                          "Cannot read properties of null (reading 'save')")
             end
         | Some p =>
             ph <- attach_photo (photo p) (files_photo req) ;;
             let p' := set_photo ph p in
             save_existing p' ;;;
             send 201 (ProductBody "Product Updated Successfully" (Some p'))
         end) w.
Proof.
  intros (Hn & Hd & Hp & Hc & Hq) Hb.
  unfold UpdateProduct. rewrite Hn, Hd, Hp, Hc, Hq. cbn [negb].
  unfold photo_within_bound in Hb.
  destruct (files_photo req) as [ph|]; [|reflexivity].
  assert (E : (1000000 <? size ph) = false) by (apply Z.ltb_ge; lia).
  rewrite E. reflexivity.
Qed.

(** An update request that passes validation, with values the schema
    accepts, for an identifier that no product carries: the handler sends
    nothing and throws a [TypeError], from [product.photo] on the null
    document when a file came with the request and from [product.save]
    otherwise; the exception leaves the handler for its wrapper, and the
    collection is as it was. *)
Theorem UpdateProduct_unknown_id_throws
        (w : World) (id : ObjectId) (req : FormReq) (c : Cast) :
  fields_present req ->
  photo_within_bound req ->
  cast_fields (fields req) (slugify (or_empty (f_name (fields req)))) = Some c ->
  find (Db.has_id id) (products w) = None ->
  run (UpdateProduct id req) w =
    (Exc (Js.TypeError
            (match files_photo req with
             | Some _ => "Cannot read properties of null (reading 'photo')"
             | None => "Cannot read properties of null (reading 'save')"
             end)),
     mkState (logged OpFindByIdAndUpdate w) None).
Proof.
  intros Hf Hb Hcast Hfind.
  rewrite (UpdateProduct_past_validation w id req Hf Hb).
  unfold findByIdAndUpdate. step_handler. cbn.
  rewrite Hcast. cbn. rewrite Hfind. cbn.
  destruct (files_photo req); reflexivity.
Qed.

(** An update request that passes validation, whose values the schema
    accepts and whose file, if any, can be read, replaces the record that
    carries the identifier: the answer is a 201 with the new record, which
    keeps the identifier and the creation time, takes its slug from the
    new name and its photo from the file; the collection holds the new
    record under that identifier and the same identifiers as before. *)
Theorem UpdateProduct_replaces_record
        (w : World) (id : ObjectId) (req : FormReq) (c : Cast)
        (p : Product) (ph : Photo) :
  fields_present req ->
  photo_within_bound req ->
  cast_fields (fields req) (slugify (or_empty (f_name (fields req)))) = Some c ->
  find (Db.has_id id) (products w) = Some p ->
  photo_after w req (photo p) = Some ph ->
  exists w',
    run (UpdateProduct id req) w =
      (Val tt,
       answered w' 201
         (ProductBody "Product Updated Successfully"
                      (Some (set_photo ph (apply_cast c p))))) /\
    _id (set_photo ph (apply_cast c p)) = id /\
    createdAt (set_photo ph (apply_cast c p)) = createdAt p /\
    name (set_photo ph (apply_cast c p)) = or_empty (f_name (fields req)) /\
    slug (set_photo ph (apply_cast c p)) =
      slugify (or_empty (f_name (fields req))) /\
    find (Db.has_id id) (products w') = Some (set_photo ph (apply_cast c p)) /\
    ids_of (products w') = ids_of (products w) /\
    db_log w' = (db_log w ++ [OpFindByIdAndUpdate; OpSaveProduct])%list.
Proof.
  intros Hf Hb Hcast Hfind Hphoto.
  destruct (find_has_id_sound id (products w) p Hfind) as [_ Hid].
  destruct (cast_fields_keeps _ _ _ Hcast) as (Hslug & Hname & _).
  rewrite (UpdateProduct_past_validation w id req Hf Hb).
  unfold findByIdAndUpdate, save_existing, attach_photo, readFileSync.
  unfold photo_after in Hphoto.
  step_handler. cbn. rewrite Hcast. cbn. rewrite Hfind. cbn.
  destruct (files_photo req) as [f|]; cbn.
  - destruct (find (fun e => String.eqb (fst e) (path f)) (files w))
      as [e|]; [|discriminate].
    injection Hphoto as <-. cbn.
    eexists. split; [reflexivity|]. cbn.
    rewrite Hid, replace_first_again by (cbn; exact Hid).
    repeat split; try assumption.
    + apply replace_first_found with (p := p); [exact Hid|exact Hfind].
    + apply replace_first_ids. exact Hid.
    + now rewrite <- app_assoc.
  - injection Hphoto as <-. cbn.
    eexists. split; [reflexivity|]. cbn.
    rewrite Hid, replace_first_again by (cbn; exact Hid).
    repeat split; try assumption.
    + apply replace_first_found with (p := p); [exact Hid|exact Hfind].
    + apply replace_first_ids. exact Hid.
    + now rewrite <- app_assoc.
Qed.

End FurtherMutationProperties.

Section FurtherCreateProperties.

Context {ext : Externals}.

(** A create request with the five form fields, a photo of at most
    1,000,000 bytes whose file can be read, and values the schema accepts,
    is answered with a 200 and the new record: its slug is the slug of the
    submitted name, its photo holds the bytes and the type of the file, and
    it is appended to the collection, which is otherwise unchanged. *)
Theorem CreateProducts_persists_valid_product
        (w : World) (req : FormReq) (f : File) (e : string * bytes) (c : Cast) :
  fields_present req ->
  files_photo req = Some f ->
  size f <= 1000000 ->
  find (fun e => String.eqb (fst e) (path f)) (files w) = Some e ->
  cast_fields (fields req) (slugify (or_empty (f_name (fields req)))) = Some c ->
  exists w' p,
    run (CreateProducts req) w =
      (Val tt,
       answered w' 200 (ProductBody "Product Created Successfully" (Some p))) /\
    products w' = (products w ++ [p])%list /\
    _id p = next_id w /\
    name p = or_empty (f_name (fields req)) /\
    slug p = slugify (or_empty (f_name (fields req))) /\
    description p = or_empty (f_description (fields req)) /\
    photo p = mkPhoto (Some (snd e)) (Some (type f)) /\
    categories w' = categories w /\ orders w' = orders w.
Proof.
  intros (Hn & Hd & Hp & Hc & Hq) Hphoto Hsize Hfile Hcast.
  destruct (cast_fields_keeps _ _ _ Hcast) as (Hslug & Hname & Hdesc).
  assert (E : (1000000 <? size f) = false) by (apply Z.ltb_ge; lia).
  unfold CreateProducts, attach_photo, readFileSync, save_new.
  step_handler. rewrite Hn, Hd, Hp, Hc, Hq, Hphoto, E. cbn.
  rewrite Hfile. cbn. rewrite Hcast. cbn.
  do 2 eexists. split; [reflexivity|]. cbn.
  repeat split; assumption.
Qed.

(** Whatever the request, the create handler does not throw and sends one
    answer, a 200, a 400 or a 500; the collection grows by one record with
    a 200 and is unchanged otherwise; categories and orders are never
    touched. *)
Theorem CreateProducts_always_answers (w : World) (req : FormReq) :
  exists w' st b,
    run (CreateProducts req) w = (Val tt, answered w' st b) /\
    ((st = 200 /\ exists p, products w' = (products w ++ [p])%list) \/
     ((st = 400 \/ st = 500) /\ products w' = products w)) /\
    categories w' = categories w /\ orders w' = orders w.
Proof.
  unfold CreateProducts, attach_photo, readFileSync, save_new.
  step_handler.
  destruct (Js.truthy (f_name (fields req))); cbn;
    [|do 3 eexists; split; [reflexivity|]; cbn; tauto].
  destruct (Js.truthy (f_description (fields req))); cbn;
    [|do 3 eexists; split; [reflexivity|]; cbn; tauto].
  destruct (Js.truthy (f_price (fields req))); cbn;
    [|do 3 eexists; split; [reflexivity|]; cbn; tauto].
  destruct (Js.truthy (f_category (fields req))); cbn;
    [|do 3 eexists; split; [reflexivity|]; cbn; tauto].
  destruct (Js.truthy (f_quantity (fields req))); cbn;
    [|do 3 eexists; split; [reflexivity|]; cbn; tauto].
  destruct (files_photo req) as [f|]; cbn;
    [|do 3 eexists; split; [reflexivity|]; cbn; tauto].
  destruct (1000000 <? size f); cbn;
    [do 3 eexists; split; [reflexivity|]; cbn; tauto|].
  destruct (find (fun e => String.eqb (fst e) (path f)) (files w)); cbn;
    [|do 3 eexists; split; [reflexivity|]; cbn; tauto].
  destruct (cast_fields _ _); cbn;
    do 3 eexists; (split; [reflexivity|]); cbn; [|tauto].
  split; [|tauto]. left. split; [reflexivity|]. eexists. reflexivity.
Qed.

End FurtherCreateProperties.

Lemma UpdateProduct_names_first_missing_field_witness :
  first_missing_field
    (Sample.form (Some "Kettle") (Some "for tea") None None (Some "2") None)
    = Some RPrice /\
  run (@UpdateProduct Sample.externals 1%N
         (Sample.form (Some "Kettle") (Some "for tea") None None (Some "2")
                      None))
      Demo.store =
    (Val tt, answered Demo.store 500 (ErrorBody "Price is Required")).
Proof.
  split; [reflexivity|].
  apply (@UpdateProduct_names_first_missing_field Sample.externals Demo.store
           1%N _ RPrice).
  reflexivity.
Defined.

Lemma UpdateProduct_unknown_id_throws_witness :
  fields_present (Demo.kettle None) /\
  photo_within_bound (Demo.kettle None) /\
  find (Db.has_id 77%N) (products Demo.store) = None /\
  run (@UpdateProduct Sample.externals 77%N (Demo.kettle None)) Demo.store =
    (Exc (Js.TypeError "Cannot read properties of null (reading 'save')"),
     mkState (logged OpFindByIdAndUpdate Demo.store) None).
Proof.
  assert (Hf : fields_present (Demo.kettle None))
    by (repeat split; reflexivity).
  assert (Hb : photo_within_bound (Demo.kettle None)) by exact I.
  split; [exact Hf|]. split; [exact Hb|]. split; [reflexivity|].
  exact (@UpdateProduct_unknown_id_throws Sample.externals
           Demo.store 77%N (Demo.kettle None)
           (mkCast "Kettle" "Kettle" "for tea" 30 1%N 2 (Some true))
           Hf Hb eq_refl eq_refl).
Defined.

Lemma UpdateProduct_replaces_record_witness :
  fields_present (Demo.kettle (Some (Sample.png 2048))) /\
  photo_within_bound (Demo.kettle (Some (Sample.png 2048))) /\
  exists w',
    response_of
      (run (@UpdateProduct Sample.externals 8%N
              (Demo.kettle (Some (Sample.png 2048)))) Demo.store) =
      Some (mkResponse 201
              (ProductBody "Product Updated Successfully"
                 (Some (mkProduct 8%N "Kettle" "Kettle" "for tea" 30 1%N 2
                                  (Some true)
                                  (mkPhoto (Some [x89; x50])
                                           (Some "image/png"))
                                  800)))) /\
    world_of
      (run (@UpdateProduct Sample.externals 8%N
              (Demo.kettle (Some (Sample.png 2048)))) Demo.store) = w' /\
    ids_of (products w') = ids_of (products Demo.store).
Proof.
  assert (Hf : fields_present (Demo.kettle (Some (Sample.png 2048))))
    by (repeat split; reflexivity).
  assert (Hb : photo_within_bound (Demo.kettle (Some (Sample.png 2048))))
    by (cbn; lia).
  split; [exact Hf|]. split; [exact Hb|].
  destruct (@UpdateProduct_replaces_record Sample.externals Demo.store 8%N
              (Demo.kettle (Some (Sample.png 2048)))
              (mkCast "Kettle" "Kettle" "for tea" 30 1%N 2 (Some true))
              Demo.hose
              (mkPhoto (Some [x89; x50]) (Some "image/png"))
              Hf Hb eq_refl eq_refl eq_refl)
    as [w' [Hrun [_ [_ [_ [_ [_ [Hids _]]]]]]]].
  exists w'. rewrite Hrun. repeat split. exact Hids.
Defined.

Lemma CreateProducts_persists_valid_product_witness :
  fields_present (Demo.kettle (Some (Sample.png 1000000))) /\
  size (Sample.png 1000000) <= 1000000 /\
  exists w' p,
    run (@CreateProducts Sample.externals
           (Demo.kettle (Some (Sample.png 1000000)))) Demo.store =
      (Val tt,
       answered w' 200 (ProductBody "Product Created Successfully" (Some p))) /\
    products w' = (products Demo.store ++ [p])%list /\
    slug p = "Kettle" /\
    photo p = mkPhoto (Some [x89; x50]) (Some "image/png").
Proof.
  assert (Hf : fields_present (Demo.kettle (Some (Sample.png 1000000))))
    by (repeat split; reflexivity).
  assert (Hs : size (Sample.png 1000000) <= 1000000) by (cbn; lia).
  split; [exact Hf|]. split; [exact Hs|].
  destruct (@CreateProducts_persists_valid_product Sample.externals Demo.store
              (Demo.kettle (Some (Sample.png 1000000)))
              (Sample.png 1000000)
              ("/tmp/upload_1", [x89; x50])
              (mkCast "Kettle" "Kettle" "for tea" 30 1%N 2 (Some true))
              Hf eq_refl Hs eq_refl eq_refl)
    as [w' [p [Hrun [Hps [_ [_ [Hslug [_ [Hphoto _]]]]]]]]].
  exists w', p. repeat split; assumption.
Defined.

(** * Further properties of the filter *)

Lemma in_ids_In (l : list ObjectId) (i : ObjectId) :
  in_ids l i = true <-> In i l.
Proof.
  unfold in_ids. rewrite existsb_exists. split.
  - intros [x [Hin Hx]]. apply N.eqb_eq in Hx. now subst x.
  - intros H. exists i. split; [assumption|apply N.eqb_refl].
Qed.

Lemma filter_all {A} (l : list A) : filter (fun _ => true) l = l.
Proof.
  induction l as [|a l IH]; cbn; [reflexivity|]. now rewrite IH.
Qed.

Lemma wanted_reading (cats : list ObjectId) (range : list Z) (p : Product) :
  wanted cats range p = true <->
  (cats = [] \/ In (category p) cats) /\
  match range with
  | lo :: hi :: _ => lo <= price p <= hi
  | _ => True
  end.
Proof.
  unfold wanted. rewrite andb_true_iff.
  assert (Hc : match cats with
               | [] => true
               | _ :: _ => in_ids cats (category p)
               end = true <-> cats = [] \/ In (category p) cats).
  { destruct cats as [|c cats]; [tauto|]. rewrite in_ids_In.
    split; [now right|]. intros [H|H]; [discriminate|assumption]. }
  rewrite Hc.
  destruct range as [|lo [|hi rest]]; try tauto.
  rewrite andb_true_iff, !Z.leb_le. tauto.
Qed.

(** A filter request with both arrays present, the price range empty or
    of two bounds at least, is answered with a 201 and exactly the
    products, photos included and in the order of the collection, whose
    category is one of [checked] (any category when it is empty) and whose
    price lies between the two bounds, inclusive (any price when the range
    is empty). *)
Theorem productFilter_returns_wanted_products
        (w : World) (req : FilterBodyReq) (cats : list ObjectId)
        (range : list Z) :
  checked req = Some cats ->
  radio req = Some range ->
  (List.length range <> 1)%nat ->
  run (productFilter req) w =
    (Val tt,
     answered (logged OpFind w) 201
              (FilterBody (filter (wanted cats range) (products w)))) /\
  forall p,
    In p (filter (wanted cats range) (products w)) <->
    In p (products w) /\
    (cats = [] \/ In (category p) cats) /\
    match range with
    | lo :: hi :: _ => lo <= price p <= hi
    | _ => True
    end.
Proof.
  intros Hc Hr Hlen. split.
  - unfold productFilter, length_of, find_args, Db.find_where.
    rewrite Hc, Hr. step_handler.
    destruct cats as [|c cats]; destruct range as [|lo [|hi rest]];
      try (cbn in Hlen; congruence); cbn.
    all: erewrite filter_ext; [reflexivity|];
      intros p; unfold wanted; cbn -[in_ids Z.leb];
      now rewrite ?andb_true_r, ?andb_assoc.
  - intros p. rewrite filter_In, wanted_reading. tauto.
Qed.

(** A filter request with two empty arrays is answered with the whole
    collection, in its order and with the photos. *)
Theorem productFilter_empty_arrays_return_everything (w : World) :
  run (productFilter (mkFilterReq (Some []) (Some []))) w =
    (Val tt, answered (logged OpFind w) 201 (FilterBody (products w))).
Proof.
  unfold productFilter, length_of, find_args, Db.find_where.
  step_handler. cbn. now rewrite filter_all.
Qed.

Lemma productFilter_returns_wanted_products_witness :
  (List.length [10; 20] <> 1)%nat /\
  run (productFilter (mkFilterReq (Some [2%N]) (Some [10; 20]))) Demo.store =
    (Val tt,
     answered (logged OpFind Demo.store) 201
              (FilterBody [Demo.hose; Demo.rake])).
Proof.
  assert (H : (List.length [10; 20] <> 1)%nat) by (cbn; lia).
  split; [exact H|].
  exact (proj1 (productFilter_returns_wanted_products Demo.store
                  (mkFilterReq (Some [2%N]) (Some [10; 20])) [2%N] [10; 20]
                  eq_refl eq_refl H)).
Defined.

(** * Further properties of the photo handler and of delete *)

Lemma find_has_id_unique (ps : list Product) (p : Product) :
  NoDup (ids_of ps) -> In p ps -> find (Db.has_id (_id p)) ps = Some p.
Proof.
  unfold ids_of.
  induction ps as [|q ps IH]; cbn; [tauto|].
  intros Hnd Hin. inversion Hnd as [|x l Hnotin Hnd']; subst.
  destruct Hin as [->|Hin].
  - unfold Db.has_id. now rewrite N.eqb_refl.
  - destruct (Db.has_id (_id p) q) eqn:E.
    + unfold Db.has_id in E. apply N.eqb_eq in E.
      exfalso. apply Hnotin. rewrite E. now apply in_map.
    + now apply IH.
Qed.

(** A photo request for the identifier of a product of the collection is
    answered with a 200, the stored content type and the stored bytes of
    that product, and changes nothing but the log of operations. *)
Theorem productPhotoContrller_serves_stored_photo (w : World) (p : Product) :
  unique_ids w ->
  In p (products w) ->
  run (productPhotoContrller (_id p)) w =
    (Val tt,
     answered (logged OpFindById w) 200
              (PhotoBody (contentType (photo p)) (data (photo p)))).
Proof.
  intros Hu Hin. apply productPhotoContrller_found.
  now apply find_has_id_unique.
Qed.

Lemma productPhotoContrller_serves_stored_photo_witness :
  unique_ids Demo.store /\ In Demo.rake (products Demo.store) /\
  run (productPhotoContrller 9%N) Demo.store =
    (Val tt,
     answered (logged OpFindById Demo.store) 200
              (PhotoBody (Some "image/jpeg") (Some [xff; xd8]))).
Proof.
  assert (Hu : unique_ids Demo.store).
  { unfold unique_ids. cbn. repeat constructor; cbn; intuition discriminate. }
  assert (Hin : In Demo.rake (products Demo.store)) by (cbn; tauto).
  split; [exact Hu|]. split; [exact Hin|].
  exact (productPhotoContrller_serves_stored_photo Demo.store Demo.rake Hu Hin).
Defined.

Lemma DeleteProduct_run (w : World) (id : ObjectId) :
  run (DeleteProduct id) w =
    (Val tt,
     answered
       (mkWorld (Db.remove_first id (products w)) (categories w) (orders w)
                (files w) (next_id w) (clock w)
                (db_log w ++ [OpFindByIdAndDelete]) (sales w))
       200
       (ProductBody " Deleting the product successfully  "
                    (find (Db.has_id id) (products w)))).
Proof.
  unfold DeleteProduct, Db.findByIdAndDelete. step_handler. cbn.
  destruct (find (Db.has_id id) (products w)) eqn:H; cbn.
  - reflexivity.
  - now rewrite (remove_first_absent id (products w) H).
Qed.

(** Deleting the same identifier a second time is answered with a 200 and
    null, and leaves the collection as the first delete left it; a photo
    request for the deleted identifier then gets no answer at all. *)
Theorem DeleteProduct_then_nothing_is_left (w : World) (id : ObjectId) :
  unique_ids w ->
  exists w1,
    world_of (run (DeleteProduct id) w) = w1 /\
    response_of (run (DeleteProduct id) w1) =
      Some (mkResponse 200
              (ProductBody " Deleting the product successfully  " None)) /\
    products (world_of (run (DeleteProduct id) w1)) = products w1 /\
    run (productPhotoContrller id) w1 =
      (Val tt, mkState (logged OpFindById w1) None).
Proof.
  intros Hu. eexists. split; [reflexivity|].
  rewrite (DeleteProduct_run w id). cbn [world_of snd answered world].
  assert (Hgone : find (Db.has_id id) (Db.remove_first id (products w)) = None)
    by now apply remove_first_gone.
  rewrite DeleteProduct_run. cbn [response_of world_of snd answered world sent products].
  rewrite Hgone. repeat split.
  - now apply remove_first_absent.
  - now apply productPhotoContrller_absent.
Qed.

Lemma DeleteProduct_then_nothing_is_left_witness :
  unique_ids Demo.store /\
  exists w1,
    world_of (run (DeleteProduct 9%N) Demo.store) = w1 /\
    response_of (run (DeleteProduct 9%N) w1) =
      Some (mkResponse 200
              (ProductBody " Deleting the product successfully  " None)) /\
    response_of (run (productPhotoContrller 9%N) w1) = None.
Proof.
  assert (Hu : unique_ids Demo.store).
  { unfold unique_ids. cbn. repeat constructor; cbn; intuition discriminate. }
  split; [exact Hu|].
  destruct (DeleteProduct_then_nothing_is_left Demo.store 9%N Hu)
    as [w1 [H1 [H2 [_ H4]]]].
  exists w1. split; [exact H1|]. split; [exact H2|].
  rewrite H4. reflexivity.
Defined.

(** * Further properties of the payment handler *)

(** A payment request with a cart of integer prices whose running totals
    stay within 2^53 in magnitude, where the additions of the handler are
    exact, submits exactly one sale to the gateway: its amount is the sum
    of the price fields of the cart, whatever the quantities, with the
    nonce of the request and immediate settlement. *)
Theorem brainTreePaymentController_charges_sum_of_prices
        (gateway : SaleRequest -> GatewayReply) (w : World)
        (req : PaymentReq) (c : list CartItem) :
  cart req = Some c ->
  exact_cart c ->
  sales (world_of (run (brainTreePaymentController gateway req) w)) =
    (sales w ++
     [mkSale (fold_right Z.add 0 (map item_price c)) (nonce req) true])%list.
Proof.
  intros Hc He. unfold brainTreePaymentController.
  now apply payment_submits_sum.
Qed.

Lemma brainTreePaymentController_charges_sum_of_prices_witness :
  cart Sample.checkout = Some Sample.basket /\
  exact_cart Sample.basket /\
  sales (world_of (run (brainTreePaymentController Sample.declines
                                                    Sample.checkout)
                       Demo.store)) =
    [mkSale 35 (Some "fake-valid-nonce") true].
Proof.
  assert (He : exact_cart Sample.basket).
  { split.
    - repeat constructor; cbn; lia.
    - intros [|[|[|n]]]; cbn; lia. }
  split; [reflexivity|]. split; [exact He|].
  rewrite (brainTreePaymentController_charges_sum_of_prices
             Sample.declines Demo.store Sample.checkout Sample.basket
             eq_refl He).
  reflexivity.
Defined.

(** When the gateway hands the callback no result, the answer is a 500
    carrying the gateway's error; one sale was submitted and nothing else
    changed. *)
Theorem brainTreePaymentController_failure_returns_gateway_error
        (gateway : SaleRequest -> GatewayReply) (w : World)
        (req : PaymentReq) (c : list CartItem) :
  cart req = Some c ->
  reply_result (gateway (mkSale (cart_total c) (nonce req) true)) = None ->
  run (brainTreePaymentController gateway req) w =
    (Val tt,
     answered (charged (mkSale (cart_total c) (nonce req) true) w) 500
       (GatewayErrorBody
          (reply_error (gateway (mkSale (cart_total c) (nonce req) true))))).
Proof.
  intros Hc Hr. unfold brainTreePaymentController.
  now apply payment_failure_returns_error.
Qed.

Lemma brainTreePaymentController_failure_returns_gateway_error_witness :
  cart Sample.checkout = Some Sample.basket /\
  response_of (run (brainTreePaymentController Sample.declines
                                               Sample.checkout)
                   Demo.store) =
    Some (mkResponse 500 (GatewayErrorBody (Some "gateway unavailable"))).
Proof.
  split; [reflexivity|].
  rewrite (brainTreePaymentController_failure_returns_gateway_error
             Sample.declines Demo.store Sample.checkout Sample.basket
             eq_refl eq_refl).
  reflexivity.
Defined.

(** A payment request without a cart is never answered: the exception is
    caught and logged, no sale is submitted, nothing is sent and the world
    is unchanged. *)
Theorem brainTreePaymentController_without_cart_is_not_answered
        (gateway : SaleRequest -> GatewayReply) (w : World) (req : PaymentReq) :
  cart req = None ->
  run (brainTreePaymentController gateway req) w = (Val tt, mkState w None).
Proof.
  intros Hc.
  unfold brainTreePaymentController, brainTreePaymentController_in.
  step_handler. rewrite Hc. reflexivity.
Qed.

Lemma brainTreePaymentController_without_cart_is_not_answered_witness :
  cart Demo.no_cart = None /\
  run (brainTreePaymentController Sample.accepts Demo.no_cart) Demo.store =
    (Val tt, mkState Demo.store None).
Proof.
  split; [reflexivity|].
  exact (brainTreePaymentController_without_cart_is_not_answered
           Sample.accepts Demo.store Demo.no_cart eq_refl).
Defined.

(** Whatever the gateway answers and whatever the request, the payment
    handler writes no order and touches no collection; it never answers
    with a success: any answer it sends is a 500. *)
Theorem brainTreePaymentController_never_writes_an_order
        (gateway : SaleRequest -> GatewayReply) (w : World) (req : PaymentReq) :
  orders (world_of (run (brainTreePaymentController gateway req) w)) = orders w /\
  products (world_of (run (brainTreePaymentController gateway req) w)) =
    products w /\
  db_log (world_of (run (brainTreePaymentController gateway req) w)) =
    db_log w /\
  forall r,
    response_of (run (brainTreePaymentController gateway req) w) = Some r ->
    status r = 500.
Proof.
  unfold brainTreePaymentController, brainTreePaymentController_in,
    sale_callback, transaction_sale, save_order, resolve.
  step_handler.
  destruct (cart req) as [c|]; cbn.
  - destruct (reply_result _); cbn.
    + repeat split. intros r H. discriminate.
    + repeat split. intros r H. injection H as <-. reflexivity.
  - repeat split. intros r H. discriminate.
Qed.

Lemma brainTreePaymentController_never_writes_an_order_witness :
  orders (world_of (run (brainTreePaymentController Sample.accepts
                                                    Sample.checkout)
                        Demo.store)) = [] /\
  (response_of (run (brainTreePaymentController Sample.declines
                                                Sample.checkout)
                    Demo.store) =
     Some (mkResponse 500 (GatewayErrorBody (Some "gateway unavailable"))) ->
   status (mkResponse 500 (GatewayErrorBody (Some "gateway unavailable"))) =
     500).
Proof.
  split.
  - exact (proj1 (brainTreePaymentController_never_writes_an_order
                    Sample.accepts Demo.store Sample.checkout)).
  - exact (proj2 (proj2 (proj2
             (brainTreePaymentController_never_writes_an_order
                Sample.declines Demo.store Sample.checkout))) _).
Defined.

(** * Further properties of the paginated list *)

Lemma two_pages {A} (k : nat) (l : list A) :
  (firstn 3 (skipn k l) ++ firstn 3 (skipn (k + 3) l))%list =
  firstn 6 (skipn k l).
Proof.
  replace (k + 3)%nat with (3 + k)%nat by lia.
  rewrite <- skipn_skipn.
  destruct (skipn k l) as [|a [|b [|c m]]]; reflexivity.
Qed.

Lemma one_digit_numeral (c : ascii) (d : Z) :
  digit_denotes 10 c d -> numeral (String c EmptyString) d.
Proof.
  intros H. exists [], [c], []. repeat split; try constructor.
  apply (unsigned_intro [c] d 0 [] 0 d).
  - now apply mantissa_whole, denotes_one.
  - constructor.
  - cbn. lia.
Qed.

Lemma same_time_same_product (l : list Product) (a b : Product) :
  NoDup (map (fun p : Product => createdAt p) l) ->
  In a l -> In b l -> createdAt a = createdAt b -> a = b.
Proof.
  induction l as [|x l IH]; cbn; [tauto|].
  intros Hnd Ha Hb E. inversion Hnd as [|? ? Hnotin Hnd']; subst.
  destruct Ha as [->|Ha], Hb as [->|Hb].
  - reflexivity.
  - exfalso. apply Hnotin. rewrite E.
    now apply (in_map (fun p : Product => createdAt p)).
  - exfalso. apply Hnotin. rewrite <- E.
    now apply (in_map (fun p : Product => createdAt p)).
  - now apply IH.
Qed.

(** With distinct creation times there is one way to sort: two sorted
    arrangements of the same products are equal. *)
Lemma newest_first_unique (l1 l2 : list Product) :
  Permutation l1 l2 ->
  NoDup (map (fun p : Product => createdAt p) l1) ->
  newest_first l1 -> newest_first l2 -> l1 = l2.
Proof.
  unfold newest_first. revert l2.
  induction l1 as [|a l1 IH]; intros l2 Hperm Hnd H1 H2.
  - now apply Permutation_nil in Hperm.
  - destruct l2 as [|b l2];
      [now apply Permutation_sym, Permutation_nil in Hperm|].
    inversion H1 as [|? ? Hs1 Hall1]; subst.
    inversion H2 as [|? ? Hs2 Hall2]; subst.
    assert (Hab : a = b).
    { apply (same_time_same_product (a :: l1)); try assumption.
      - now left.
      - apply (Permutation_in b (Permutation_sym Hperm)). now left.
      - assert (Ha : In a (b :: l2))
          by (apply (Permutation_in a Hperm); now left).
        assert (Hb : In b (a :: l1))
          by (apply (Permutation_in b (Permutation_sym Hperm)); now left).
        rewrite Forall_forall in Hall1, Hall2.
        destruct Ha as [->|Ha]; [reflexivity|].
        destruct Hb as [->|Hb]; [reflexivity|].
        pose proof (Hall2 a Ha). pose proof (Hall1 b Hb). lia. }
    subst b. f_equal. apply IH.
    + now apply Permutation_cons_inv in Hperm.
    + now inversion Hnd.
    + assumption.
    + assumption.
Qed.

Lemma sort_desc_unique (first second : TieBreak) (w : World) :
  distinct_times w ->
  @sort_desc second (products w) = @sort_desc first (products w).
Proof.
  intros Hd. apply newest_first_unique.
  - rewrite (@sort_desc_perm second), (@sort_desc_perm first). reflexivity.
  - unfold distinct_times in Hd.
    apply (Permutation_NoDup
             (Permutation_map _ (Permutation_sym (@sort_desc_perm second _)))).
    exact Hd.
  - apply sort_desc_sorted.
  - apply sort_desc_sorted.
Qed.

Section FurtherListingProperties.

Context {ties : TieBreak}.

(** A list request for a page that starts at or after the end of the
    collection is answered with a 200 and an empty list. *)
Theorem productList_page_past_the_end_is_empty
        (w : World) (page_param : option string) (p : Z) :
  asks_page page_param p ->
  1 <= p ->
  Z.of_nat (List.length (products w)) <= (p - 1) * 3 ->
  run (productList page_param) w =
    (Val tt, answered (logged OpFind w) 200 (ListBody [])).
Proof.
  intros Hask Hp Hlen. rewrite (productList_run w page_param p Hask Hp).
  rewrite skipn_all2; [reflexivity|].
  rewrite sort_desc_length. lia.
Qed.

End FurtherListingProperties.

Lemma productList_page_past_the_end_is_empty_witness :
  asks_page (Some "4") 4 /\ 1 <= 4 /\
  Z.of_nat (List.length (products Demo.store)) <= (4 - 1) * 3 /\
  run (@productList Demo.by_arrival (Some "4")) Demo.store =
    (Val tt, answered (logged OpFind Demo.store) 200 (ListBody [])).
Proof.
  assert (Hask : asks_page (Some "4") 4).
  { right. exists "4". split; [reflexivity|]. split; [discriminate|].
    split; [|lia]. apply one_digit_numeral. pick. }
  assert (Hp : 1 <= 4) by lia.
  assert (Hlen : Z.of_nat (List.length (products Demo.store)) <= (4 - 1) * 3)
    by (cbn; lia).
  split; [exact Hask|]. split; [exact Hp|]. split; [exact Hlen|].
  exact (@productList_page_past_the_end_is_empty Demo.by_arrival Demo.store
           (Some "4") 4 Hask Hp Hlen).
Defined.

(** When no two products have the same creation time, two consecutive
    pages neither overlap nor leave a record out, however the store orders
    ties at either request: page [p] followed by page [p + 1] shows, record
    by record, the run of six that starts after the first [(p - 1) * 3] of
    the collection sorted by descending creation time. *)
Theorem productList_consecutive_pages_are_contiguous
        (first second : TieBreak) (w : World)
        (this next : option string) (p : Z) :
  distinct_times w ->
  asks_page this p ->
  asks_page next (p + 1) ->
  1 <= p ->
  exists sorted l1 l2,
    Permutation sorted (products w) /\
    newest_first sorted /\
    run (@productList first this) w =
      (Val tt, answered (logged OpFind w) 200 (ListBody l1)) /\
    run (@productList second next) w =
      (Val tt, answered (logged OpFind w) 200 (ListBody l2)) /\
    Forall2 shows (l1 ++ l2)
            (firstn 6 (skipn (Z.to_nat ((p - 1) * 3)) sorted)).
Proof.
  intros Hd Hthis Hnext Hp.
  assert (Hp' : 1 <= p + 1) by lia.
  exists (@sort_desc first (products w)). do 2 eexists.
  split; [apply sort_desc_perm|].
  split; [apply sort_desc_sorted|].
  split; [exact (@productList_run first w this p Hthis Hp)|].
  split; [exact (@productList_run second w next (p + 1) Hnext Hp')|].
  rewrite (sort_desc_unique first second w Hd).
  rewrite <- map_app.
  replace (Z.to_nat ((p + 1 - 1) * 3))
    with (Z.to_nat ((p - 1) * 3) + 3)%nat by lia.
  rewrite two_pages. apply map_without_photo_shows.
Qed.

Lemma productList_consecutive_pages_are_contiguous_witness :
  distinct_times Demo.store /\
  asks_page None 1 /\ asks_page (Some " 2.0") (1 + 1) /\ 1 <= 1 /\
  exists sorted,
    run (@productList Demo.by_arrival None) Demo.store =
      (Val tt,
       answered (logged OpFind Demo.store) 200
         (ListBody
            [mkProduct 9%N "Rake" "Rake" "steel teeth" 12 2%N 2 None tt 900;
             mkProduct 8%N "Hose" "Hose" "ten metres" 15 2%N 4 (Some true)
                       tt 800;
             Demo.card 4%N "Cup" "small" 5 600])) /\
    run (@productList Demo.latest_arrival_first (Some " 2.0")) Demo.store =
      (Val tt,
       answered (logged OpFind Demo.store) 200
         (ListBody
            [Demo.card 5%N "Jar" "glass" 7 500;
             Demo.card 6%N "Pan" "steel" 30 400;
             Demo.card 2%N "Mug" "A blue MUG for tea" 25 300])) /\
    firstn 6 sorted =
      [Demo.rake; Demo.hose; Sample.cup; Sample.jar; Sample.pan; Sample.mug].
Proof.
  assert (Hd : distinct_times Demo.store).
  { unfold distinct_times. cbn. repeat constructor; cbn; intuition lia. }
  assert (H1 : asks_page None 1) by (left; split; reflexivity).
  assert (H2 : asks_page (Some " 2.0") (1 + 1)).
  { right. exists " 2.0". split; [reflexivity|]. split; [discriminate|].
    split; [|lia].
    exists [" "%char], ["2"; "."; "0"]%char, [].
    split; [reflexivity|].
    split; [constructor; [pick|constructor]|].
    split; [constructor|].
    apply literal_plain.
    apply (unsigned_intro ["2"; "."; "0"]%char 20 1 [] 0 2).
    - apply (mantissa_point ["2"%char] 2 ["0"%char] 0).
      + apply digits_some, denotes_one. pick.
      + apply digits_some, denotes_one. pick.
      + discriminate.
    - constructor.
    - reflexivity. }
  assert (Hp : 1 <= 1) by lia.
  split; [exact Hd|]. split; [exact H1|]. split; [exact H2|].
  split; [exact Hp|].
  destruct (productList_consecutive_pages_are_contiguous
              Demo.by_arrival Demo.latest_arrival_first Demo.store None
              (Some " 2.0") 1 Hd H1 H2 Hp)
    as (sorted & l1 & l2 & Hperm & Hsorted & Hr1 & Hr2 & Hshows).
  exists sorted.
  assert (Hsame : sorted = @sort_desc Demo.by_arrival (products Demo.store)).
  { apply newest_first_unique; try assumption.
    - rewrite Hperm. symmetry. apply sort_desc_perm.
    - apply (Permutation_NoDup
               (Permutation_map _ (Permutation_sym Hperm))). exact Hd.
    - apply sort_desc_sorted. }
  split; [reflexivity|]. split; [reflexivity|].
  rewrite Hsame. reflexivity.
Defined.

(** * Further properties of the keyword search *)

Lemma test_same_letters (k k' s : string) :
  same_letters k k' ->
  Regex.test (map Regex.Lit (list_ascii_of_string k)) s =
  Regex.test (map Regex.Lit (list_ascii_of_string k')) s.
Proof.
  intros H. apply eq_true_iff_eq. unfold Regex.test.
  rewrite !search_literal. unfold same_letters in H. now rewrite H.
Qed.

(** Letter case in the keyword does not matter: two non-empty keywords
    without special characters that differ only in the case of their
    letters get the same answer. *)
Theorem ProductSearch_ignores_case_of_keyword (w : World) (k k' : string) :
  Js.nonempty k = true -> Js.nonempty k' = true ->
  plain_keyword k = true -> plain_keyword k' = true ->
  same_letters k k' ->
  run (ProductSearch (Some k)) w = run (ProductSearch (Some k')) w.
Proof.
  intros Hn Hn' Hp Hp' Hsame.
  unfold ProductSearch, find_regex, Db.find_where.
  rewrite Hn, Hn', (compile_plain k Hp), (compile_plain k' Hp').
  step_handler. cbn.
  erewrite filter_ext; [reflexivity|].
  intros p. cbn. now rewrite !(test_same_letters k k' _ Hsame).
Qed.

Lemma ProductSearch_ignores_case_of_keyword_witness :
  Js.nonempty "TEA" = true /\ plain_keyword "tea" = true /\
  same_letters "TEA" "tea" /\
  run (ProductSearch (Some "TEA")) Demo.store =
    run (ProductSearch (Some "tea")) Demo.store /\
  response_of (run (ProductSearch (Some "tea")) Demo.store) =
    Some (mkResponse 200
            (SearchBody [without_photo Sample.mug])).
Proof.
  split; [reflexivity|]. split; [reflexivity|]. split; [reflexivity|].
  split.
  - exact (ProductSearch_ignores_case_of_keyword Demo.store "TEA" "tea"
             eq_refl eq_refl eq_refl eq_refl eq_refl).
  - reflexivity.
Defined.

(** * The read handlers change nothing *)

Lemma untouched_refl (w : World) : untouched w w.
Proof. repeat split. Qed.

Lemma untouched_logged (o : DbOp) (w : World) : untouched w (logged o w).
Proof. repeat split. Qed.

Section ReadHandlers.

Context {ties : TieBreak}.

(** Get by slug, photo, paginated list, keyword search and filter leave
    products, categories, orders and files as they were, whatever the
    request and whether they answer, answer with an error or throw. *)
Theorem read_handlers_leave_collections_untouched
        (w : World) (s : string) (pid : ObjectId) (page : option string)
        (keyword : option string) (req : FilterBodyReq) :
  untouched w (world_of (run (getProduct s) w)) /\
  untouched w (world_of (run (productPhotoContrller pid) w)) /\
  untouched w (world_of (run (productList page) w)) /\
  untouched w (world_of (run (ProductSearch keyword) w)) /\
  untouched w (world_of (run (productFilter req) w)).
Proof.
  split; [|split; [|split; [|split]]].
  - rewrite getProduct_run. apply untouched_logged.
  - destruct (find (Db.has_id pid) (products w)) as [p|] eqn:H.
    + rewrite (productPhotoContrller_found w pid p H). apply untouched_logged.
    + rewrite (productPhotoContrller_absent w pid H). apply untouched_logged.
  - unfold productList, find_page.
    destruct (Js.mul _ _) as [k|]; step_handler; cbn.
    + destruct (k <? 0); cbn; repeat split.
    + repeat split.
  - unfold ProductSearch, find_regex, Db.find_where.
    destruct keyword as [k|]; [|apply untouched_refl].
    destruct (Js.nonempty k); [|apply untouched_refl].
    destruct (Regex.compile k); step_handler; cbn; repeat split.
  - unfold productFilter, length_of, find_args, Db.find_where.
    destruct (checked req) as [c|]; [|apply untouched_refl].
    destruct (radio req) as [r|]; [|apply untouched_refl].
    step_handler.
    destruct r as [|lo [|hi rest]]; cbn; repeat split.
Qed.

End ReadHandlers.

(** * List all, related products, products of a category *)

Lemma In_firstn_In {A} (n : nat) (l : list A) (x : A) :
  In x (firstn n l) -> In x l.
Proof.
  revert l. induction n as [|n IH]; intros [|a l]; cbn; try tauto.
  intros [H|H]; [now left|right; now apply IH].
Qed.

Lemma map_shows_resolved (cats : list Category) (l : list Product) :
  Forall2 (shows_resolved cats)
          (map (fun p => without_photo (populate cats p)) l) l.
Proof.
  induction l as [|p l IH]; cbn; constructor.
  - apply without_photo_shows_resolved.
  - exact IH.
Qed.

Lemma map_shows_whole (cats : list Category) (l : list Product) :
  Forall2 (shows_whole cats) (map (populate cats) l) l.
Proof.
  induction l as [|p l IH]; cbn; constructor.
  - apply populate_shows_whole.
  - exact IH.
Qed.

Lemma Forall2_firstn {A B} (R : A -> B -> Prop) (n : nat)
      (l : list A) (m : list B) :
  Forall2 R l m -> Forall2 R (firstn n l) (firstn n m).
Proof.
  intros H. revert n. induction H as [|a b l m Hab _ IH]; intros [|n]; cbn;
    constructor; auto.
Qed.

Section ListAllProperties.

Context {ties : TieBreak}.

Lemma getAllProducts_run (w : World) :
  view getAllProducts w =
    (Val tt,
     mkViewState (logged OpFind w)
       (Some (mkViewResponse 200
                (AllBody
                   (Z.of_nat
                      (List.length
                         (map (fun p => without_photo (populate (categories w) p))
                              (firstn 12 (sort_desc (products w))))))
                   "All Products"
                   (map (fun p => without_photo (populate (categories w) p))
                        (firstn 12 (sort_desc (products w)))))))).
Proof.
  unfold getAllProducts, find_newest. step_view. reflexivity.
Qed.

(** List all answers 200 with the first twelve products of the collection
    sorted by descending creation time, all of them when the collection is
    smaller; each is shown with its own fields, with its category resolved
    to the category document it refers to and without its photo;
    [countTotal] is the number of products in the answer.  This holds
    however the store orders products of the same creation time. *)
Theorem getAllProducts_returns_newest_twelve (w : World) :
  exists sorted shown,
    Permutation sorted (products w) /\
    newest_first sorted /\
    view getAllProducts w =
      (Val tt,
       mkViewState (logged OpFind w)
         (Some (mkViewResponse 200
                  (AllBody (Z.of_nat (List.length shown)) "All Products"
                           shown)))) /\
    Forall2 (shows_resolved (categories w)) shown (firstn 12 sorted) /\
    List.length shown = Nat.min 12 (List.length (products w)).
Proof.
  exists (sort_desc (products w)). eexists.
  split; [apply sort_desc_perm|].
  split; [apply sort_desc_sorted|].
  split; [apply getAllProducts_run|].
  split; [apply map_shows_resolved|].
  now rewrite length_map, length_firstn, sort_desc_length.
Qed.

End ListAllProperties.

Lemma getAllProducts_returns_newest_twelve_witness :
  exists sorted,
    Permutation sorted (products Sample.small) /\
    newest_first sorted /\
    view (@getAllProducts Demo.by_arrival) Sample.small =
      (Val tt,
       mkViewState (logged OpFind Sample.small)
         (Some (mkViewResponse 200
                  (AllBody 2 "All Products"
                     [mkProduct 2%N "Mug" "Mug" "A blue MUG for tea" 25
                                (Some Sample.kitchen) 1 None tt 300;
                      mkProduct 1%N "abc" "abc" "xyz" 10
                                (Some Sample.kitchen) 1 None tt 100])))) /\
    Forall2 (shows_resolved (categories Sample.small))
      [mkProduct 2%N "Mug" "Mug" "A blue MUG for tea" 25
                 (Some Sample.kitchen) 1 None tt 300;
       mkProduct 1%N "abc" "abc" "xyz" 10
                 (Some Sample.kitchen) 1 None tt 100]
      (firstn 12 sorted).
Proof.
  destruct (@getAllProducts_returns_newest_twelve Demo.by_arrival Sample.small)
    as (sorted & shown & Hperm & Hsorted & Hrun & Hshows & _).
  assert (E : view (@getAllProducts Demo.by_arrival) Sample.small =
              (Val tt,
               mkViewState (logged OpFind Sample.small)
                 (Some (mkViewResponse 200
                          (AllBody 2 "All Products"
                             [mkProduct 2%N "Mug" "Mug" "A blue MUG for tea"
                                        25 (Some Sample.kitchen) 1 None tt
                                        300;
                              mkProduct 1%N "abc" "abc" "xyz" 10
                                        (Some Sample.kitchen) 1 None tt
                                        100])))))
    by reflexivity.
  rewrite E in Hrun. injection Hrun as _ <-.
  exists sorted. repeat split; assumption.
Defined.

(** When no two products have the same creation time, the first page of
    the paginated list and the first three entries of list all show the
    same three records, the newest of the collection, however the store
    orders ties at either request. *)
Theorem first_page_is_head_of_getAllProducts
        (first second : TieBreak) (w : World) :
  distinct_times w ->
  exists sorted page total message everything,
    Permutation sorted (products w) /\
    newest_first sorted /\
    run (@productList first None) w =
      (Val tt, answered (logged OpFind w) 200 (ListBody page)) /\
    view (@getAllProducts second) w =
      (Val tt,
       mkViewState (logged OpFind w)
         (Some (mkViewResponse 200 (AllBody total message everything)))) /\
    Forall2 shows page (firstn 3 sorted) /\
    Forall2 (shows_resolved (categories w))
            (firstn 3 everything) (firstn 3 sorted).
Proof.
  intros Hd.
  assert (Hask : asks_page None 1) by (left; split; reflexivity).
  assert (Hp : 1 <= 1) by lia.
  exists (@sort_desc first (products w)). do 4 eexists.
  split; [apply sort_desc_perm|].
  split; [apply sort_desc_sorted|].
  split; [exact (@productList_run first w None 1 Hask Hp)|].
  split; [apply getAllProducts_run|].
  split.
  - change (Z.to_nat ((1 - 1) * 3)) with 0%nat. cbn [skipn].
    apply map_without_photo_shows.
  - rewrite (sort_desc_unique first second w Hd).
    replace (firstn 3 (@sort_desc first (products w)))
      with (firstn 3 (firstn 12 (@sort_desc first (products w))))
      by (now rewrite firstn_firstn).
    apply Forall2_firstn, map_shows_resolved.
Qed.

Lemma first_page_is_head_of_getAllProducts_witness :
  distinct_times Demo.store /\
  exists sorted total message everything,
    firstn 3 sorted = [Demo.rake; Demo.hose; Sample.cup] /\
    run (@productList Demo.by_arrival None) Demo.store =
      (Val tt,
       answered (logged OpFind Demo.store) 200
         (ListBody
            [mkProduct 9%N "Rake" "Rake" "steel teeth" 12 2%N 2 None tt 900;
             mkProduct 8%N "Hose" "Hose" "ten metres" 15 2%N 4 (Some true)
                       tt 800;
             Demo.card 4%N "Cup" "small" 5 600])) /\
    view (@getAllProducts Demo.latest_arrival_first) Demo.store =
      (Val tt,
       mkViewState (logged OpFind Demo.store)
         (Some (mkViewResponse 200 (AllBody total message everything)))) /\
    firstn 3 everything =
      [mkProduct 9%N "Rake" "Rake" "steel teeth" 12 (Some Demo.garden) 2
                 None tt 900;
       mkProduct 8%N "Hose" "Hose" "ten metres" 15 (Some Demo.garden) 4
                 (Some true) tt 800;
       mkProduct 4%N "Cup" "Cup" "small" 5 (Some Sample.kitchen) 1 None tt
                 600].
Proof.
  assert (Hd : distinct_times Demo.store).
  { unfold distinct_times. cbn. repeat constructor; cbn; intuition lia. }
  split; [exact Hd|].
  destruct (first_page_is_head_of_getAllProducts
              Demo.by_arrival Demo.latest_arrival_first Demo.store Hd)
    as (sorted & page & total & message & everything
        & Hperm & Hsorted & Hpage & Hall & _).
  assert (Hsame : sorted = @sort_desc Demo.by_arrival (products Demo.store)).
  { apply newest_first_unique; try assumption.
    - rewrite Hperm. symmetry. apply sort_desc_perm.
    - apply (Permutation_NoDup
               (Permutation_map _ (Permutation_sym Hperm))). exact Hd.
    - apply sort_desc_sorted. }
  exists sorted, total, message, everything.
  split; [rewrite Hsame; reflexivity|]. split; [reflexivity|].
  split; [exact Hall|].
  assert (E : exists t m rest,
             view (@getAllProducts Demo.latest_arrival_first) Demo.store =
               (Val tt,
                mkViewState (logged OpFind Demo.store)
                  (Some (mkViewResponse 200
                           (AllBody t m
                              (mkProduct 9%N "Rake" "Rake" "steel teeth" 12
                                         (Some Demo.garden) 2 None tt 900
                               :: mkProduct 8%N "Hose" "Hose" "ten metres"
                                            15 (Some Demo.garden) 4
                                            (Some true) tt 800
                               :: mkProduct 4%N "Cup" "Cup" "small" 5
                                            (Some Sample.kitchen) 1 None tt
                                            600
                               :: rest))))))
    by (vm_compute; do 3 eexists; reflexivity).
  destruct E as (t & m & rest & E).
  rewrite E in Hall. inversion Hall; subst. reflexivity.
Defined.

Lemma relatedProduct_run (w : World) (pid cid : ObjectId) :
  view (relatedProduct pid cid) w =
    (Val tt,
     mkViewState (logged OpFind w)
       (Some (mkViewResponse 200
                (RelatedBody
                   (map (fun p => without_photo (populate (categories w) p))
                        (firstn 4 (filter (related_to pid cid)
                                          (products w)))))))).
Proof.
  unfold relatedProduct, Db.find_where. step_view. reflexivity.
Qed.

Lemma related_to_reading (pid cid : ObjectId) (p : Product) :
  related_to pid cid p = true <-> category p = cid /\ _id p <> pid.
Proof.
  unfold related_to.
  rewrite andb_true_iff, negb_true_iff, N.eqb_eq, N.eqb_neq. tauto.
Qed.

(** Related products answers 200 with at most four products; each product
    of the answer shows, with its own fields, its category resolved and
    its photo dropped, a product of the collection that is in the category
    asked for and is not the product asked about; when fewer than four are
    returned, every such product of the collection is among them. *)
Theorem relatedProduct_returns_others_of_category
        (w : World) (pid cid : ObjectId) :
  exists found shown,
    view (relatedProduct pid cid) w =
      (Val tt,
       mkViewState (logged OpFind w)
         (Some (mkViewResponse 200 (RelatedBody shown)))) /\
    Forall2 (shows_resolved (categories w)) shown found /\
    (List.length found <= 4)%nat /\
    (forall p, In p found ->
               In p (products w) /\ category p = cid /\ _id p <> pid) /\
    ((List.length found < 4)%nat ->
     forall p, In p (products w) -> category p = cid -> _id p <> pid ->
               In p found).
Proof.
  exists (firstn 4 (filter (related_to pid cid) (products w))). eexists.
  split; [apply relatedProduct_run|].
  split; [apply map_shows_resolved|].
  split; [apply firstn_le_length|].
  split.
  - intros p Hin. apply In_firstn_In in Hin. apply filter_In in Hin.
    destruct Hin as [Hin Hrel]. apply related_to_reading in Hrel. tauto.
  - intros Hlen p Hin Hcat Hid.
    rewrite length_firstn in Hlen.
    rewrite firstn_all2 by lia.
    apply filter_In. split; [assumption|].
    now apply related_to_reading.
Qed.

Lemma relatedProduct_returns_others_of_category_witness :
  exists found,
    view (relatedProduct 8%N 2%N) Demo.store =
      (Val tt,
       mkViewState (logged OpFind Demo.store)
         (Some (mkViewResponse 200
                  (RelatedBody
                     [mkProduct 9%N "Rake" "Rake" "steel teeth" 12
                                (Some Demo.garden) 2 None tt 900])))) /\
    Forall2 (shows_resolved (categories Demo.store))
      [mkProduct 9%N "Rake" "Rake" "steel teeth" 12
                 (Some Demo.garden) 2 None tt 900]
      found /\
    (In Demo.rake (products Demo.store) -> category Demo.rake = 2%N ->
     _id Demo.rake <> 8%N -> In Demo.rake found).
Proof.
  destruct (relatedProduct_returns_others_of_category Demo.store 8%N 2%N)
    as (found & shown & Hrun & Hshows & _ & _ & Hall).
  assert (E : view (relatedProduct 8%N 2%N) Demo.store =
              (Val tt,
               mkViewState (logged OpFind Demo.store)
                 (Some (mkViewResponse 200
                          (RelatedBody
                             [mkProduct 9%N "Rake" "Rake" "steel teeth" 12
                                        (Some Demo.garden) 2 None tt 900])))))
    by reflexivity.
  rewrite E in Hrun. injection Hrun as <-.
  exists found. split; [reflexivity|]. split; [exact Hshows|].
  apply Hall.
  pose proof (Forall2_length Hshows) as Hlen. cbn in Hlen. lia.
Defined.

(** A request for the products of a category slug that no category has is
    answered with a 404 and the message that the category was not found;
    the product collection is not queried. *)
Theorem productCategroyController_unknown_slug_is_404
        (w : World) (s : string) :
  find (fun c => String.eqb (cat_slug c) s) (categories w) = None ->
  view (productCategroyController s) w =
    (Val tt,
     mkViewState (logged OpFindOne w)
       (Some (mkViewResponse 404 (NoCategoryBody "Category not found")))).
Proof.
  intros H. unfold productCategroyController, findOne_category.
  step_view. cbn. rewrite H. reflexivity.
Qed.

Lemma productCategroyController_unknown_slug_is_404_witness :
  find (fun c => String.eqb (cat_slug c) "garage") (categories Demo.store)
    = None /\
  view (productCategroyController "garage") Demo.store =
    (Val tt,
     mkViewState (logged OpFindOne Demo.store)
       (Some (mkViewResponse 404 (NoCategoryBody "Category not found")))).
Proof.
  split; [reflexivity|].
  exact (productCategroyController_unknown_slug_is_404 Demo.store "garage"
           eq_refl).
Defined.

(** A request for the products of a category slug that a category has is
    answered with a 200, that category, and exactly the products of the
    collection that refer to its identifier, in the order of the
    collection; each is shown with its own fields, its category resolved
    and its photo kept. *)
Theorem productCategroyController_returns_products_of_category
        (w : World) (s : string) (c : Category) :
  find (fun c => String.eqb (cat_slug c) s) (categories w) = Some c ->
  exists found shown,
    view (productCategroyController s) w =
      (Val tt,
       mkViewState (logged OpFind (logged OpFindOne w))
         (Some (mkViewResponse 200 (CategoryBody c shown)))) /\
    Forall2 (shows_whole (categories w)) shown found /\
    found = filter (fun p : Product => N.eqb (category p) (cat_id c))
                   (products w) /\
    cat_slug c = s /\ In c (categories w) /\
    (forall p, In p found <-> In p (products w) /\ category p = cat_id c).
Proof.
  intros H. do 2 eexists. split; [|split; [|split; [|split; [|split]]]].
  - unfold productCategroyController, findOne_category, Db.find_where.
    step_view. cbn. rewrite H. cbn. reflexivity.
  - apply map_shows_whole.
  - reflexivity.
  - apply find_some in H. now apply String.eqb_eq.
  - now apply find_some in H.
  - intros p. rewrite filter_In, N.eqb_eq. tauto.
Qed.

Lemma productCategroyController_returns_products_of_category_witness :
  find (fun c => String.eqb (cat_slug c) "garden") (categories Demo.store)
    = Some Demo.garden /\
  exists found,
    view (productCategroyController "garden") Demo.store =
      (Val tt,
       mkViewState (logged OpFind (logged OpFindOne Demo.store))
         (Some (mkViewResponse 200
                  (CategoryBody Demo.garden
                     [mkProduct 8%N "Hose" "Hose" "ten metres" 15
                                (Some Demo.garden) 4 (Some true)
                                (mkPhoto None None) 800;
                      mkProduct 9%N "Rake" "Rake" "steel teeth" 12
                                (Some Demo.garden) 2 None
                                (mkPhoto (Some [xff; xd8])
                                         (Some "image/jpeg"))
                                900])))) /\
    found = [Demo.hose; Demo.rake].
Proof.
  split; [reflexivity|].
  destruct (productCategroyController_returns_products_of_category
              Demo.store "garden" Demo.garden eq_refl)
    as (found & shown & Hrun & _ & Hfound & _).
  exists found. split; [reflexivity|]. rewrite Hfound. reflexivity.
Defined.

(** * Create, then read back *)

Lemma find_last {A} (f : A -> bool) (l : list A) (x : A) :
  find f l = None -> f x = true -> find f (l ++ [x]) = Some x.
Proof.
  induction l as [|a l IH]; cbn.
  - intros _ ->. reflexivity.
  - destruct (f a); [discriminate|]. exact IH.
Qed.

Lemma remove_first_last (i : ObjectId) (ps : list Product) (p : Product) :
  find (Db.has_id i) ps = None -> _id p = i ->
  Db.remove_first i (ps ++ [p]) = ps.
Proof.
  intros Hnone Hid. induction ps as [|q ps IH]; cbn in *.
  - unfold Db.has_id. now rewrite Hid, N.eqb_refl.
  - destruct (Db.has_id i q); [discriminate|]. now rewrite IH.
Qed.

Section CreateThenRead.

Context {ext : Externals}.

Lemma CreateProducts_valid_run
      (w : World) (req : FormReq) (f : File) (e : string * bytes) (c : Cast) :
  fields_present req ->
  files_photo req = Some f ->
  size f <= 1000000 ->
  find (fun e => String.eqb (fst e) (path f)) (files w) = Some e ->
  cast_fields (fields req) (slugify (or_empty (f_name (fields req)))) = Some c ->
  run (CreateProducts req) w =
    (Val tt,
     answered
       (created (new_record w c (mkPhoto (Some (snd e)) (Some (type f)))) w)
       200
       (ProductBody "Product Created Successfully"
          (Some (new_record w c (mkPhoto (Some (snd e)) (Some (type f))))))).
Proof.
  intros (Hn & Hd & Hp & Hc & Hq) Hphoto Hsize Hfile Hcast.
  assert (E : (1000000 <? size f) = false) by (apply Z.ltb_ge; lia).
  unfold CreateProducts, attach_photo, readFileSync, save_new.
  step_handler. rewrite Hn, Hd, Hp, Hc, Hq, Hphoto, E. cbn.
  rewrite Hfile. cbn. rewrite Hcast. reflexivity.
Qed.

(** What a successful create stored can be read back: when the new
    identifier and the new slug are not yet in the collection, a photo
    request for the new identifier is answered with the uploaded bytes and
    their content type, and a request by the slug of the submitted name is
    answered with one product that has the fields of the new record (its
    name and description from the form, its slug from the name), its
    category resolved and no photo. *)
Theorem CreateProducts_then_read_back
        (w : World) (req : FormReq) (f : File) (e : string * bytes) (c : Cast) :
  fields_present req ->
  files_photo req = Some f ->
  size f <= 1000000 ->
  find (fun e => String.eqb (fst e) (path f)) (files w) = Some e ->
  cast_fields (fields req) (slugify (or_empty (f_name (fields req)))) = Some c ->
  find (Db.has_id (next_id w)) (products w) = None ->
  find (fun p : Product =>
          String.eqb (slug p) (slugify (or_empty (f_name (fields req)))))
       (products w) = None ->
  exists w' p v,
    run (CreateProducts req) w =
      (Val tt,
       answered w' 200 (ProductBody "Product Created Successfully" (Some p))) /\
    run (productPhotoContrller (_id p)) w' =
      (Val tt,
       answered (logged OpFindById w') 200
                (PhotoBody (Some (type f)) (Some (snd e)))) /\
    run (getProduct (slugify (or_empty (f_name (fields req))))) w' =
      (Val tt,
       answered (logged OpFindOne w') 200
         (SingleBody " Single the  Product Fetched  " (Some v))) /\
    same_fields v p /\
    resolves (categories w) (category p) (category v) /\
    name v = or_empty (f_name (fields req)) /\
    description v = or_empty (f_description (fields req)) /\
    slug v = slugify (or_empty (f_name (fields req))).
Proof.
  intros Hf Hphoto Hsize Hfile Hcast Hfresh Hslug.
  destruct (cast_fields_keeps _ _ _ Hcast) as (Hcs & Hcn & Hcd).
  do 3 eexists.
  split; [exact (CreateProducts_valid_run w req f e c Hf Hphoto Hsize Hfile Hcast)|].
  split; [|split].
  - rewrite (productPhotoContrller_found _ _
               (new_record w c (mkPhoto (Some (snd e)) (Some (type f))))).
    + reflexivity.
    + cbn. apply find_last; [exact Hfresh|].
      unfold Db.has_id. cbn. apply N.eqb_refl.
  - rewrite getProduct_run. cbn [created products categories].
    rewrite (find_last _ _ _ Hslug).
    + reflexivity.
    + cbn. rewrite Hcs. apply String.eqb_refl.
  - destruct (without_photo_shows_resolved (categories w)
                (new_record w c (mkPhoto (Some (snd e)) (Some (type f)))))
      as [Hsame Hres].
    split; [exact Hsame|]. split; [exact Hres|].
    destruct Hsame as (_ & Hn & Hs & Hd & _).
    rewrite Hn, Hs, Hd. cbn [new_record name slug description].
    repeat split; assumption.
Qed.

(** Deleting the identifier of a record that a create has just written
    returns that record and leaves the products of the collection as they
    were before the create. *)
Theorem CreateProducts_then_DeleteProduct_restores
        (w : World) (req : FormReq) (f : File) (e : string * bytes) (c : Cast) :
  fields_present req ->
  files_photo req = Some f ->
  size f <= 1000000 ->
  find (fun e => String.eqb (fst e) (path f)) (files w) = Some e ->
  cast_fields (fields req) (slugify (or_empty (f_name (fields req)))) = Some c ->
  find (Db.has_id (next_id w)) (products w) = None ->
  exists w' p,
    run (CreateProducts req) w =
      (Val tt,
       answered w' 200 (ProductBody "Product Created Successfully" (Some p))) /\
    response_of (run (DeleteProduct (_id p)) w') =
      Some (mkResponse 200
              (ProductBody " Deleting the product successfully  " (Some p))) /\
    products (world_of (run (DeleteProduct (_id p)) w')) = products w.
Proof.
  intros Hf Hphoto Hsize Hfile Hcast Hfresh.
  do 2 eexists.
  split; [exact (CreateProducts_valid_run w req f e c Hf Hphoto Hsize Hfile Hcast)|].
  rewrite DeleteProduct_run.
  cbn [response_of world_of snd answered sent world products created
       new_record _id].
  split.
  - rewrite (find_last _ _ _ Hfresh); [reflexivity|].
    unfold Db.has_id. cbn. apply N.eqb_refl.
  - now apply remove_first_last.
Qed.

End CreateThenRead.

Lemma CreateProducts_then_read_back_witness :
  fields_present (Demo.kettle (Some (Sample.png 2048))) /\
  size (Sample.png 2048) <= 1000000 /\
  find (Db.has_id (next_id Demo.store)) (products Demo.store) = None /\
  exists w' p,
    run (@CreateProducts Sample.externals
           (Demo.kettle (Some (Sample.png 2048)))) Demo.store =
      (Val tt,
       answered w' 200 (ProductBody "Product Created Successfully" (Some p))) /\
    run (productPhotoContrller (_id p)) w' =
      (Val tt,
       answered (logged OpFindById w') 200
                (PhotoBody (Some "image/png") (Some [x89; x50]))) /\
    run (getProduct "Kettle") w' =
      (Val tt,
       answered (logged OpFindOne w') 200
         (SingleBody " Single the  Product Fetched  "
            (Some (mkProduct 100%N "Kettle" "Kettle" "for tea" 30
                             (Some Sample.kitchen) 2 (Some true) tt 1000)))).
Proof.
  assert (Hf : fields_present (Demo.kettle (Some (Sample.png 2048))))
    by (repeat split; reflexivity).
  assert (Hs : size (Sample.png 2048) <= 1000000) by (cbn; lia).
  split; [exact Hf|]. split; [exact Hs|]. split; [reflexivity|].
  destruct (@CreateProducts_then_read_back Sample.externals Demo.store
              (Demo.kettle (Some (Sample.png 2048))) (Sample.png 2048)
              ("/tmp/upload_1", [x89; x50])
              (mkCast "Kettle" "Kettle" "for tea" 30 1%N 2 (Some true))
              Hf eq_refl Hs eq_refl eq_refl eq_refl eq_refl)
    as (w' & p & v & Hrun & Hphoto & Hget & _).
  assert (E : run (@CreateProducts Sample.externals
                     (Demo.kettle (Some (Sample.png 2048)))) Demo.store =
              run (@CreateProducts Sample.externals
                     (Demo.kettle (Some (Sample.png 2048)))) Demo.store)
    by reflexivity.
  rewrite Hrun in E at 1. vm_compute in E. inversion E; subst. clear E.
  eexists. eexists. split; [exact Hrun|]. split; [exact Hphoto|].
  reflexivity.
Defined.

Lemma CreateProducts_then_DeleteProduct_restores_witness :
  fields_present (Demo.kettle (Some (Sample.png 2048))) /\
  size (Sample.png 2048) <= 1000000 /\
  exists w' p,
    run (@CreateProducts Sample.externals
           (Demo.kettle (Some (Sample.png 2048)))) Demo.store =
      (Val tt,
       answered w' 200 (ProductBody "Product Created Successfully" (Some p))) /\
    products (world_of (run (DeleteProduct (_id p)) w')) =
      products Demo.store.
Proof.
  assert (Hf : fields_present (Demo.kettle (Some (Sample.png 2048))))
    by (repeat split; reflexivity).
  assert (Hs : size (Sample.png 2048) <= 1000000) by (cbn; lia).
  split; [exact Hf|]. split; [exact Hs|].
  destruct (@CreateProducts_then_DeleteProduct_restores Sample.externals
              Demo.store
              (Demo.kettle (Some (Sample.png 2048))) (Sample.png 2048)
              ("/tmp/upload_1", [x89; x50])
              (mkCast "Kettle" "Kettle" "for tea" 30 1%N 2 (Some true))
              Hf eq_refl Hs eq_refl eq_refl eq_refl)
    as [w' [p [Hrun [_ Hps]]]].
  exists w', p. split; [exact Hrun|exact Hps].
Defined.
